(** * OS-discord-bot: the conversational-state engine of [bot.py]

    A shallow embedding of [DiscordResponse.write], [DiscordResponse.sanitize],
    [Bot.save_message], [Bot.load_channel], [Bot.flush_channel], [Bot.chat],
    [Bot.reset_command] and [Bot.on_message], and the properties the
    specification states about them.

    Modelling conventions.
    - A Python [str] is a list of Unicode code points ([N]); [len], slicing
      and [rfind] follow Python, negative indices included.
    - Python [int]s are [Z].
    - The Redis server is a finite map from keys to the stored turn
      sequences.  The value is kept deserialised: [json.loads (json.dumps m)]
      gives [m] back for the lists of string-valued dicts the bot stores.
      The server is reliable and keys do not expire inside one run of an
      operation, so the [except] branches around the Redis calls are not
      taken.
    - Exceptions raised by the bot's own code or by the language-model
      backend are explicit: a computation returns [Ok] or [Raise]. *)

From Stdlib Require Import ZArith NArith List Lia Bool String Ascii DecimalString.
From stdpp Require Import base option list gmap.
Import ListNotations.
Local Open Scope Z_scope.

(** ** Python strings *)

Abbreviation char := N (only parsing).
Abbreviation text := (list N) (only parsing).

Definition str (s : string) : text := map N_of_ascii (list_ascii_of_string s).

Definition newline : char := 10%N.

Module Py.

Definition len {A} (s : list A) : Z := Z.of_nat (length s).

(** [s[:n]] *)
Definition slice_to {A} (s : list A) (n : Z) : list A :=
  if n <? 0 then take (Z.to_nat (len s + n)) s else take (Z.to_nat n) s.

(** [s[n:]] *)
Definition slice_from {A} (s : list A) (n : Z) : list A :=
  if n <? 0 then drop (Z.to_nat (len s + n)) s else drop (Z.to_nat n) s.

(** [s[n]] for [0 <= n < len s]; [None] stands for [IndexError]. *)
Definition get {A} (s : list A) (n : Z) : option A :=
  if n <? 0 then None else s !! Z.to_nat n.

(** Scan from the left, remembering the index of the last match. *)
Fixpoint rfind_scan (c : char) (s : text) (i last : Z) : Z :=
  match s with
  | [] => last
  | x :: s' => rfind_scan c s' (i + 1) (if N.eqb x c then i else last)
  end.

(** [s.rfind(c, 0, stop)] for a one-character needle: the highest index
    below [stop] holding [c], or [-1]. *)
Definition rfind (s : text) (c : char) (stop : Z) : Z :=
  rfind_scan c (slice_to s stop) 0 (-1).

(** The code points for which [str.isspace] holds. *)
Definition isspace (c : char) : bool :=
  ((9 <=? c) && (c <=? 13) || (28 <=? c) && (c <=? 32)
   || (c =? 133) || (c =? 160) || (c =? 5760)
   || (8192 <=? c) && (c <=? 8202)
   || (c =? 8232) || (c =? 8233) || (c =? 8239) || (c =? 8287)
   || (c =? 12288))%N.

Fixpoint lstrip (s : text) : text :=
  match s with
  | [] => []
  | c :: s' => if isspace c then lstrip s' else s
  end.

Definition rstrip (s : text) : text := rev (lstrip (rev s)).

(** [s.strip()] *)
Definition strip (s : text) : text := rstrip (lstrip s).

Fixpoint startswith (s p : text) : bool :=
  match p, s with
  | [], _ => true
  | _ :: _, [] => false
  | a :: p', b :: s' => N.eqb a b && startswith s' p'
  end.

(** [skip] counts the characters of a match that are still to be passed
    over. *)
Fixpoint replace_scan (old new s : text) (skip : nat) : text :=
  match s with
  | [] => []
  | c :: s' =>
      match skip with
      | S k => replace_scan old new s' k
      | O =>
          if startswith s old
          then new ++ replace_scan old new s' (length old - 1)
          else c :: replace_scan old new s' 0
      end
  end.

(** [s.replace(old, new)] for a non-empty [old]: the occurrences are
    replaced from the left and do not overlap. *)
Definition replace (s old new : text) : text := replace_scan old new s 0.

(** [sub in s] *)
Fixpoint contains (s sub : text) : bool :=
  startswith s sub ||
  match s with
  | [] => false
  | _ :: s' => contains s' sub
  end.

(** [str(n)] for an [int]. *)
Definition str_int (n : Z) : text :=
  map N_of_ascii (list_ascii_of_string (NilZero.string_of_int (Z.to_int n))).

End Py.

(** ** discord.py *)

Module Discord.

Definition isdigit (c : char) : bool := ((48 <=? c) && (c <=? 57))%N.

(** Seventeen digits, after an optional [!] or [&]. *)
Definition snowflake_follows (s : text) : bool :=
  let s :=
    match s with
    | c :: s' => if ((c =? 33) || (c =? 38))%N then s' else s
    | [] => s
    end in
  bool_decide (length (take 17 s) = 17%nat) && forallb isdigit (take 17 s).

(** [discord.utils.escape_mentions]: the library substitutes
    [@(everyone|here|[!&]?[0-9]{17,20})] by the same text with a zero-width
    space after the [@].  A match holds no second [@], so every [@] is
    looked at on its own.  The function is written out for the examples;
    the properties below hold for any function in its place. *)
Fixpoint escape_mentions (s : text) : text :=
  match s with
  | [] => []
  | c :: s' =>
      if (c =? 64)%N
         && (Py.startswith s' (str "everyone") || Py.startswith s' (str "here")
             || snowflake_follows s')
      then c :: 8203%N :: escape_mentions s'
      else c :: escape_mentions s'
  end.

End Discord.

(** ** DiscordResponse *)

(** One call of [channel.send]: the text, and whether it carries
    [reference=message]. *)
Record Send := mkSend { payload : text; reference : bool }.

Definition zero_width_space : char := 8203%N.

Definition NOTHING_TO_SAY : text := str "*I don't have anything to say.*".

Section DiscordResponse.

(** [discord.utils.escape_mentions] belongs to discord.py. *)
Variable escape_mentions : text -> text.

Definition sanitize (message : text) : text :=
  let stripped := Py.strip message in
  let non_mentioned :=
    Py.replace
      (Py.replace stripped (str "@everyone")
         (str "@" ++ zero_width_space :: str "everyone"))
      (str "@here") (str "@" ++ zero_width_space :: str "here") in
  escape_mentions non_mentioned.

(** The text [write] sends: the sanitized input, or the placeholder. *)
Definition outgoing (s : text) : text :=
  let value := sanitize s in
  if Py.len value =? 0 then NOTHING_TO_SAY else value.

(** The [while not done] loop of [write].  [i] and [referenced] are the
    loop variables on entry of an iteration; the result lists the sends
    made from this iteration on.  [fuel] bounds the iterations. *)
Fixpoint write_loop (fuel : nat) (i : Z) (referenced : bool)
    (message_remaining : text) : list Send :=
  match fuel with
  | O => []
  | S fuel' =>
      let i := i + 1 in
      if 10 <? i then [] else
      let split_index := Py.rfind message_remaining newline 2000 in
      let split_index :=
        if split_index =? -1
        then (if Py.len message_remaining <=? 2000
              then Py.len message_remaining else 2000)
        else split_index in
      let chunk_to_send := Py.slice_to message_remaining split_index in
      let whole :=
        (Py.len chunk_to_send =? 0) && (0 <? Py.len message_remaining)
        && (Py.len message_remaining <=? 2000) in
      let chunk_to_send := if whole then message_remaining else chunk_to_send in
      let done := whole in
      if Py.len chunk_to_send =? 0 then []
      else
        let sent := mkSend chunk_to_send (negb referenced) in
        let message_remaining :=
          if (split_index <? Py.len message_remaining)
             && bool_decide (Py.get message_remaining split_index = Some newline)
          then Py.slice_from message_remaining (split_index + 1)
          else Py.slice_from message_remaining split_index in
        if Py.len message_remaining =? 0 then [sent]
        else sent :: (if done then [] else write_loop fuel' i true message_remaining)
  end.

(** The sends of [write] on an already sanitized, non-empty [value]. *)
Definition write_value (value : text) : list Send :=
  if 2000 <=? Py.len value
  then write_loop 11 0 false value
  else [mkSend value true].

Definition write (s : text) : list Send := write_value (outgoing s).

End DiscordResponse.

(** ** Exceptions *)

Inductive exn := IndexError | TypeError | OtherError.

Inductive result (A : Type) :=
  | Ok (a : A)
  | Raise (e : exn).
Arguments Ok {A} a.
Arguments Raise {A} e.

(** ** The bot and its session store *)

(** One entry of a channel's history: the dict [{'role': ..., 'content': ...}]. *)
Record Turn := mkTurn { role : text; content : text }.

Global Instance Turn_eq_dec : EqDecision Turn.
Proof. solve_decision. Defined.

(** The Redis server: one key per channel, holding the turn sequence. *)
Abbreviation Redis := (gmap (list N) (list Turn)) (only parsing).

(** The fields of [Bot] that the session engine reads. *)
Record Bot := mkBot {
  admin_id : text;
  chat_channel_id : text;
  bot_name : text;
  chat_max_length : Z;
  ctx : Z;
  msg_max_chars : Z;
  stream : bool;
  backend : text;
  ready : bool
}.

Definition key (channel_id : text) : text :=
  str "discollama:channel:" ++ channel_id.

(** [load_channel]: the stored sequence, or [[]] when the key is absent. *)
Definition load_channel (redis : Redis) (channel_id : text) : list Turn :=
  default [] (redis !! key channel_id).

(** [flush_channel] *)
Definition flush_channel (redis : Redis) (channel_id : text) : Redis :=
  delete (key channel_id) redis.

(** Lines 351-353 of [save_message]: keep the last [msg_max_chars]
    characters of an oversized message. *)
Definition truncate (self : Bot) (message : text) : text :=
  if msg_max_chars self <? Py.len message
  then Py.slice_from message (- msg_max_chars self)
  else message.

(** The eviction loop of [save_message]:
    [while len(messages) >= self.chat_max_length: messages.pop(0)].
    [pop(0)] on an empty list raises [IndexError]. *)
Fixpoint evict (self : Bot) (messages : list Turn) : result (list Turn) :=
  match messages with
  | [] => if chat_max_length self <=? 0 then Raise IndexError else Ok []
  | _ :: messages' =>
      if chat_max_length self <=? Py.len messages
      then evict self messages'
      else Ok messages
  end.

(** [save_message] *)
Definition save_message (self : Bot) (redis : Redis)
    (channel_id message role : text) : result Redis :=
  if bool_decide (Py.strip message = []) then Ok redis
  else
    let content_str := truncate self message in
    let content := mkTurn role content_str in
    let messages := load_channel redis channel_id in
    match evict self messages with
    | Raise e => Raise e
    | Ok messages => Ok (<[key channel_id := messages ++ [content]]> redis)
    end.

(** A run of appends to one channel, each a call of [save_message] with a
    message and a role; the run ends at the first exception. *)
Fixpoint appends (self : Bot) (redis : Redis) (channel_id : text)
    (items : list (text * text)) : result Redis :=
  match items with
  | [] => Ok redis
  | (message, role) :: items' =>
      match save_message self redis channel_id message role with
      | Ok redis' => appends self redis' channel_id items'
      | Raise e => Raise e
      end
  end.

(** The turn that [save_message] stores for a message. *)
Definition turn_of (self : Bot) (item : text * text) : Turn :=
  mkTurn (item.2) (truncate self item.1).

(** The last [k] elements of a list. *)
Definition lastn {A} (k : nat) (l : list A) : list A := drop (length l - k) l.


(** ** json.dumps *)

Module Json.

Definition hexdigit (n : N) : char :=
  (if n <? 10 then 48 + n else 87 + n)%N.

(** ['{0:04x}'.format(n)] for [n < 65536]. *)
Definition hex4 (n : N) : text :=
  [hexdigit (n / 4096 mod 16); hexdigit (n / 256 mod 16);
   hexdigit (n / 16 mod 16); hexdigit (n mod 16)]%N.

Definition backslash : char := 92%N.
Definition quote : char := 34%N.

(** One character of a string under [ensure_ascii=True]. *)
Definition escape (c : char) : text :=
  (if c =? 34 then [backslash; quote]
   else if c =? 92 then [backslash; backslash]
   else if c =? 10 then backslash :: str "n"
   else if c =? 13 then backslash :: str "r"
   else if c =? 9 then backslash :: str "t"
   else if c =? 12 then backslash :: str "f"
   else if c =? 8 then backslash :: str "b"
   else if (32 <=? c) && (c <=? 126) then [c]
   else if c <? 65536 then backslash :: str "u" ++ hex4 c
   else
     let n := c - 65536 in
     backslash :: str "u" ++ hex4 (55296 + (n / 1024) mod 1024)
       ++ backslash :: str "u" ++ hex4 (56320 + n mod 1024))%N.

Definition dumps_str (s : text) : text :=
  quote :: concat (map escape s) ++ [quote].

Definition dumps_turn (t : Turn) : text :=
  str "{" ++ dumps_str (str "role") ++ str ": " ++ dumps_str (role t)
    ++ str ", " ++ dumps_str (str "content") ++ str ": "
    ++ dumps_str (content t) ++ str "}".

Fixpoint join (sep : text) (items : list text) : text :=
  match items with
  | [] => []
  | [item] => item
  | item :: items' => item ++ sep ++ join sep items'
  end.

(** [json.dumps(messages)] for a list of turns. *)
Definition dumps (messages : list Turn) : text :=
  str "[" ++ join (str ", ") (map dumps_turn messages) ++ str "]".

End Json.

(** ** The context-window trimmer: lines 272-277 of [chat] *)

(** The [while excess > 0 and local_messages] loop. *)
Fixpoint trim_loop (self : Bot) (excess : Z) (local_messages : list Turn)
    : list Turn :=
  match local_messages with
  | [] => []
  | _ :: rest =>
      if 0 <? excess
      then trim_loop self (Py.len (Json.dumps rest) - ctx self * 4) rest
      else local_messages
  end.

Definition trim (self : Bot) (local_messages : list Turn) : list Turn :=
  let total_context := Json.dumps local_messages in
  if ctx self * 4 <? Py.len total_context
  then trim_loop self (Py.len total_context - ctx self * 4) local_messages
  else local_messages.

(** ** The language-model backend *)

(** What one call of the backend gives: a text, or an exception.  The text
    is what [data.get('message', {}).get('content', '')] reads, empty when a
    key is missing. *)
Inductive Reply :=
  | Replied (response : text)
  | Failed (e : exn).

(** The fields [chat] reads from an OpenAI-style completion; [None] stands
    for an access that raises. *)
Record Completion := mkCompletion {
  choices_message_content : option text;  (* data['choices'][0]['message']['content'] *)
  message_content : option text;          (* data.get('message', {}).get('content', '') *)
  choices_text : option text              (* data['choices'][0].get('text', '') *)
}.

(** The backend as [chat] sees it, for the messages it is called with.
    A streaming call yields parts and then ends, normally or with an
    exception; each part is given by the chunk line 287-289 reads from it. *)
Record Backend := mkBackend {
  ollama_stream : list Turn -> list text * option exn;
  ollama_chat : list Turn -> Reply;
  openai_create : list Turn -> result Completion
}.

Definition UNABLE : text :=
  str "I am sorry, I am unable to respond at the moment.".

Definition ASSISTANT : text := str "assistant".
Definition USER : text := str "user".

(** The [async for] loop body, lines 286-291. *)
Definition accumulate (parts : list text) : text :=
  fold_left (fun response_message chunk =>
               if Py.len chunk =? 0 then response_message
               else response_message ++ chunk) parts [].

(** [if response_message: await self.save_message(...)] *)
Definition save_response (self : Bot) (redis : Redis)
    (channel_id response_message : text) : result Redis :=
  if Py.len response_message =? 0 then Ok redis
  else save_message self redis channel_id response_message ASSISTANT.

(** The single-shot call, lines 295-298 and 300-303. *)
Definition single_shot (self : Bot) (backend_ : Backend) (redis : Redis)
    (channel_id : text) (local_messages : list Turn) : result (text * Redis) :=
  match ollama_chat backend_ local_messages with
  | Failed e => Raise e
  | Replied response_message =>
      match save_response self redis channel_id response_message with
      | Raise e => Raise e
      | Ok redis' => Ok (response_message, redis')
      end
  end.

(** Lines 279-303: the [ollama] branch. *)
Definition ollama_branch (self : Bot) (backend_ : Backend) (redis : Redis)
    (channel_id : text) (local_messages : list Turn) : result (text * Redis) :=
  if stream self then
    let '(parts, failure) := ollama_stream backend_ local_messages in
    let attempt :=
      match failure with
      | Some e => Raise e
      | None =>
          let response_message := accumulate parts in
          match save_response self redis channel_id response_message with
          | Raise e => Raise e
          | Ok redis' => Ok (response_message, redis')
          end
      end in
    match attempt with
    | Raise TypeError => single_shot self backend_ redis channel_id local_messages
    | other => other
    end
  else single_shot self backend_ redis channel_id local_messages.

(** Lines 315-321: reading the text out of a completion. *)
Definition completion_text (data : Completion) : text :=
  match choices_message_content data with
  | Some response_message => response_message
  | None =>
      match message_content data with
      | None => []
      | Some first =>
          if Py.len first =? 0
          then match choices_text data with Some second => second | None => [] end
          else first
      end
  end.

(** Lines 327-329. *)
Definition respond_with (response_message : text) (redis : Redis)
    : text * Redis :=
  (if Py.len response_message =? 0 then UNABLE else response_message, redis).

(** [chat]: the reply for the channel and the store afterwards. *)
Definition chat (self : Bot) (backend_ : Backend) (redis : Redis)
    (channel_id : text) : text * Redis :=
  let local_messages := trim self (load_channel redis channel_id) in
  if bool_decide (backend self = str "ollama") then
    match ollama_branch self backend_ redis channel_id local_messages with
    | Ok (response_message, redis') => respond_with response_message redis'
    | Raise e => (UNABLE, redis)
    end
  else
    match openai_create backend_ local_messages with
    | Raise e => (UNABLE, redis)
    | Ok data =>
        let response_message := completion_text data in
        match save_response self redis channel_id response_message with
        | Raise e => (UNABLE, redis)
        | Ok redis' => respond_with response_message redis'
        end
    end.

(** What the backend gives in the end for [local_messages]: the text of the
    call [chat] relies on, or the exception that call ends with.  The
    single-shot call stands in for a streaming call that ends with
    [TypeError]. *)
Definition backend_outcome (self : Bot) (backend_ : Backend)
    (local_messages : list Turn) : result text :=
  let single :=
    match ollama_chat backend_ local_messages with
    | Replied response => Ok response
    | Failed e => Raise e
    end in
  if bool_decide (backend self = str "ollama") then
    if stream self then
      match ollama_stream backend_ local_messages with
      | (parts, None) => Ok (accumulate parts)
      | (_, Some TypeError) => single
      | (_, Some e) => Raise e
      end
    else single
  else
    match openai_create backend_ local_messages with
    | Ok data => Ok (completion_text data)
    | Raise e => Raise e
    end.

(** ** The reset command *)

Record Interaction := mkInteraction {
  user_id : Z;                      (* interaction.user.id *)
  interaction_channel_id : option Z; (* interaction.channel_id *)
  interaction_guild_name : option text (* interaction.guild.name, when in a guild *)
}.

Definition NOT_AUTHORIZED : text := str "You are not authorized to reset the chat.".
Definition NO_CHANNEL : text := str "Unable to determine channel to reset.".
Definition CHAT_RESET : text := str "Chat reset.".
Definition RESET_ERROR : text := str "An error occurred while resetting the chat.".

(** The seed turn of a reset channel. *)
Definition greeting (guild_name : text) : text :=
  str "*You joined the chat! - You joined " ++ guild_name ++ str ".*".

(** [reset_command]: the follow-up message and the store afterwards. *)
Definition reset_command (self : Bot) (redis : Redis)
    (interaction : Interaction) : text * Redis :=
  if negb (Py.len (admin_id self) =? 0)
     && negb (bool_decide (Py.str_int (user_id interaction) = admin_id self))
  then (NOT_AUTHORIZED, redis)
  else
    match interaction_channel_id interaction with
    | None => (NO_CHANNEL, redis)
    | Some id =>
        if id =? 0 then (NO_CHANNEL, redis)
        else
          let channel_id := Py.str_int id in
          let redis := flush_channel redis channel_id in
          let guild_name :=
            default (str "this chat") (interaction_guild_name interaction) in
          match save_message self redis channel_id (greeting guild_name) ASSISTANT with
          | Ok redis' => (CHAT_RESET, redis')
          | Raise e => (RESET_ERROR, redis)
          end
    end.

(** ** The message handler *)

(** What [on_message] and [Bot.message] read from a message. *)
Record Message := mkMessage {
  has_channel : bool;             (* hasattr(message, "channel") *)
  channel_id : Z;                 (* message.channel.id *)
  channel_name : option text;     (* message.channel.name, when it has one *)
  is_dm : bool;                   (* isinstance(message.channel, discord.DMChannel) *)
  guild_name : text;              (* message.channel.guild.name *)
  message_id : Z;                 (* message.id *)
  created_at : text;              (* message.created_at.strftime(...) *)
  author_id : Z;                  (* message.author.id *)
  author_name : text;             (* message.author.name *)
  author_bot : bool;              (* message.author.bot *)
  from_self : bool;               (* self.discord.user == message.author *)
  mentioned : bool;               (* self.discord.user.mentioned_in(message) *)
  reply_to : option Z;            (* message.reference.message_id *)
  message_text : text             (* message.content *)
}.

Definition DM_SORRY : text :=
  str "I am sorry, I am unable to respond in private messages.".
Definition ERROR_SORRY : text :=
  str "I am sorry, I encountered an error while trying to respond.".
Definition RESET : text := str "RESET".

(** [Bot.message]: the line stored for a message. *)
Definition message_line (message : Message) (content : text) : text :=
  let said :=
    match reply_to message with
    | Some id => str "replied to " ++ Py.str_int id
    | None => str "said"
    end in
  let chat_name := default (str "this chat") (channel_name message) in
  str "**(" ++ Py.str_int (message_id message) ++ str ") at "
    ++ created_at message ++ str " " ++ author_name message
    ++ str "(" ++ Py.str_int (author_id message) ++ str ") " ++ said
    ++ str " in " ++ chat_name ++ str "**: " ++ content.

Definition denied (message : Message) : text :=
  author_name message ++ str " tried to reset the chat, but was denied.".

Section OnMessage.

(** [discord.utils.escape_mentions], and [str.title] with its Unicode
    case tables. *)
Variable escape_mentions : text -> text.
Variable title : text -> text.

(** The id of the bot's own user, [self.discord.user.id]. *)
Variable discord_user_id : Z.

(** Lines 244-260: answer a message whose turn content is [content]. *)
Definition respond (self : Bot) (backend_ : Backend) (redis : Redis)
    (message : Message) (content : text) : Redis * list Send :=
  let string_channel_id := Py.str_int (channel_id message) in
  match save_message self redis string_channel_id
          (message_line message content) USER with
  | Raise e => (redis, write escape_mentions ERROR_SORRY)
  | Ok redis =>
      let '(response, redis) := chat self backend_ redis string_channel_id in
      (redis, write escape_mentions response)
  end.

(** The text of the message with the bot's mention replaced by its name,
    line 230. *)
Definition processed (self : Bot) (message : Message) : text :=
  Py.strip
    (Py.replace (message_text message)
       (str "<@" ++ Py.str_int discord_user_id ++ str ">")
       (title (bot_name self))).

(** Line 223: the message is not addressed to the bot. *)
Definition not_for_us (message : Message) : bool :=
  negb (mentioned message) || author_bot message
  || Py.contains (message_text message) (str "@everyone")
  || Py.contains (message_text message) (str "@here").

(** [on_message]: the store afterwards and the messages sent, or the
    exception that leaves the handler.  [sampled] tells that
    [(random.random() * 1000) > 0.1] came out false. *)
Definition on_message (self : Bot) (backend_ : Backend) (sampled : bool)
    (redis : Redis) (message : Message) : result (Redis * list Send) :=
  if negb (ready self) then Ok (redis, [])
  else if negb (has_channel message) then Ok (redis, [])
  else
    let string_channel_id := Py.str_int (channel_id message) in
    if negb (Py.len (chat_channel_id self) =? 0)
       && negb (bool_decide (string_channel_id = chat_channel_id self))
    then Ok (redis, [])
    else if from_self message then Ok (redis, [])
    else if is_dm message then
      Ok (redis, if mentioned message then write escape_mentions DM_SORRY else [])
    else
      let saved :=
        if not_for_us message
        then save_message self redis string_channel_id
               (message_line message (message_text message)) USER
        else Ok redis in
      match saved with
      | Raise e => Raise e
      | Ok redis =>
          if not_for_us message && negb sampled then Ok (redis, [])
          else
            let content := processed self message in
            if Py.len content =? 0 then Ok (redis, [])
            else if bool_decide (content = RESET)
                    && bool_decide (Py.str_int (author_id message) = admin_id self)
            then
              let redis := flush_channel redis string_channel_id in
              match save_message self redis string_channel_id
                      (greeting (guild_name message)) ASSISTANT with
              | Raise e => Raise e
              | Ok redis => Ok (redis, [])
              end
            else
              let content :=
                if bool_decide (content = RESET)
                   && negb (bool_decide
                              (Py.str_int (author_id message) = admin_id self))
                then denied message
                else content in
              Ok (respond self backend_ redis message content)
      end.

End OnMessage.

(** Putting segments together again: after segment [k] a newline is put
    back when [consumed] says so at [k]. *)
Fixpoint rejoin (segments : list text) (consumed : list bool) : text :=
  match segments with
  | [] => []
  | seg :: segments' =>
      seg ++ (if hd false consumed then [newline] else [])
          ++ rejoin segments' (tl consumed)
  end.

(** An empty slice: the remaining text is longer than the window and the
    only newline of the window is its first character. *)
Definition empty_slice (remaining : text) : Prop :=
  Py.rfind remaining newline 2000 = 0 /\ 2000 < Py.len remaining.

Definition rep (n : nat) (s : string) : text := concat (replicate n (str s)).

(** A text whose second remainder opens with the only newline of its
    window and does not fit in one message. *)
Definition stalled : text :=
  rep 1999 "a" ++ newline :: newline :: rep 2000 "b".

(** A text whose second remainder opens with the only newline of its
    window and fits in one message. *)
Definition led_by_newline : text :=
  rep 1999 "a" ++ newline :: newline :: str "bbb".

(** The bot with the defaults of its constructor, answering to admin 42. *)
Definition default_bot : Bot :=
  mkBot (str "42") [] (str "assistant") 500 4096 1000 false (str "ollama") true.

(** Bots started with [--chat-max-length 2], [--chat-max-length 0] and
    [--msg-max-chars 0]. *)
Definition short_memory : Bot :=
  mkBot (str "42") [] (str "assistant") 2 4096 1000 false (str "ollama") true.

Definition no_memory : Bot :=
  mkBot (str "42") [] (str "assistant") 0 4096 1000 false (str "ollama") true.

Definition no_cap : Bot :=
  mkBot (str "42") [] (str "assistant") 500 4096 0 false (str "ollama") true.

Definition terse : Bot :=
  mkBot (str "42") [] (str "assistant") 500 4096 3 false (str "ollama") true.

(** A bot started with [--ctx 20]: a budget of 80 characters. *)
Definition narrow : Bot :=
  mkBot (str "42") [] (str "assistant") 500 20 1000 false (str "ollama") true.

(** A bot started with [--stream]. *)
Definition streaming : Bot :=
  mkBot (str "42") [] (str "assistant") 500 4096 1000 true (str "ollama") true.

(** A bot started with [--type openai]. *)
Definition openai_bot : Bot :=
  mkBot (str "42") [] (str "assistant") 500 4096 1000 false (str "openai") true.

(** A backend that answers [hello], refusing the streaming call shape. *)
Definition hello_backend : Backend :=
  mkBackend (fun _ => ([], Some TypeError))
            (fun _ => Replied (str "hello"))
            (fun _ => Ok (mkCompletion (Some (str "hello")) None None)).

(** A backend that is down. *)
Definition down_backend : Backend :=
  mkBackend (fun _ => ([str "par"], Some OtherError))
            (fun _ => Failed OtherError)
            (fun _ => Raise OtherError).

(** A backend that refuses the streaming call shape and then is down. *)
Definition refusing_backend : Backend :=
  mkBackend (fun _ => ([], Some TypeError))
            (fun _ => Failed OtherError)
            (fun _ => Raise OtherError).

(** A stored history for channel 7. *)
Definition old_history : gmap (list N) (list Turn) :=
  {[ key (str "7") := [mkTurn USER (str "old")] ]}.

(** Reset requests for channel 7: by the admin, by somebody else, and by the
    admin in an interaction without channel. *)
Definition admin_request : Interaction := mkInteraction 42 (Some 7) None.
Definition stranger_request : Interaction := mkInteraction 7 (Some 7) None.
Definition lost_request : Interaction := mkInteraction 42 None None.

(** [str.title] on unaccented Latin letters, for the examples: a letter
    is upper case when the character before it is not a letter and lower
    case otherwise. *)
Fixpoint title_ascii_from (after_letter : bool) (s : text) : text :=
  match s with
  | [] => []
  | c :: s' =>
      let upper := ((65 <=? c) && (c <=? 90))%N in
      let lower := ((97 <=? c) && (c <=? 122))%N in
      (if after_letter
       then (if upper then c + 32 else c)
       else (if lower then c - 32 else c))%N
        :: title_ascii_from (upper || lower) s'
  end.

Definition title_ascii (s : text) : text := title_ascii_from false s.

(** A reply to the bot, which mentions it, with the text [RESET], written
    by user 7 in channel 7. *)
Definition reset_by_stranger : Message :=
  mkMessage true 7 (Some (str "general")) false (str "guild") 1001
    (str "2024-01-01 12:00:00") 7 (str "mallory") false false true
    (Some 1000) (str "RESET").

(** The same bot started without [--stream]. *)
Definition without_stream (self : Bot) : Bot :=
  mkBot (admin_id self) (chat_channel_id self) (bot_name self)
    (chat_max_length self) (ctx self) (msg_max_chars self) false
    (backend self) (ready self).

(** Who passes the check of [reset_command]: anybody when no admin id is
    configured, else the admin. *)
Definition may_reset (self : Bot) (interaction : Interaction) : Prop :=
  admin_id self = [] \/ Py.str_int (user_id interaction) = admin_id self.

(** The message passes the checks of lines 203-220 of [on_message]: the
    bot is ready, the message has a channel, the channel is the configured
    one if one is configured, the author is not the bot, and the channel is
    not a private one. *)
Definition accepted (self : Bot) (message : Message) : Prop :=
  ready self = true /\
  has_channel message = true /\
  (chat_channel_id self = [] \/
   Py.str_int (channel_id message) = chat_channel_id self) /\
  from_self message = false /\
  is_dm message = false.


(** A bot started with [--ctx 0]. *)
Definition no_context : Bot :=
  mkBot (str "42") [] (str "assistant") 500 0 1000 false (str "ollama") true.

(** A backend that answers with one space, and a backend that streams
    [hel], an empty part and [lo]. *)
Definition blank_backend : Backend :=
  mkBackend (fun _ => ([], Some TypeError))
            (fun _ => Replied (str " "))
            (fun _ => Raise OtherError).

Definition parts_backend : Backend :=
  mkBackend (fun _ => ([str "hel"; []; str "lo"], None))
            (fun _ => Failed OtherError)
            (fun _ => Raise OtherError).

(** Messages of channel 7: one that does not mention the bot, one that
    asks the bot (user 99) a question, the text [RESET] from the admin, and a
    private message. *)
Definition chatter : Message :=
  mkMessage true 7 (Some (str "general")) false (str "guild") 1002
    (str "2024-01-01 12:00:01") 8 (str "alice") false false false
    None (str "hello there").

Definition question : Message :=
  mkMessage true 7 (Some (str "general")) false (str "guild") 1003
    (str "2024-01-01 12:00:02") 8 (str "alice") false false true
    None (str "<@99> how are you").

Definition reset_by_admin : Message :=
  mkMessage true 7 (Some (str "general")) false (str "guild") 1004
    (str "2024-01-01 12:00:03") 42 (str "root") false false true
    (Some 1000) (str "RESET").

Definition private : Message :=
  mkMessage true 5 None true [] 1005
    (str "2024-01-01 12:00:04") 8 (str "alice") false false true
    None (str "<@99> hi").

(** The text [RESET] written by user 7 in channel 7 without any mention of
    the bot. *)
Definition reset_unaddressed : Message :=
  mkMessage true 7 (Some (str "general")) false (str "guild") 1006
    (str "2024-01-01 12:00:05") 7 (str "mallory") false false false
    None (str "RESET").

(* ================================================================= *)
(** * Properties *)

(** ** Facts about the Python string operations *)

Section PyFacts.
Import Py.

Lemma len_nonneg {A} (s : list A) : 0 <= len s.
Proof. unfold len. lia. Qed.

Lemma len_nil_iff {A} (s : list A) : len s = 0 <-> s = [].
Proof.
  unfold len. destruct s; simpl; split; intros H; try done; lia.
Qed.

Lemma len_app {A} (s t : list A) : len (s ++ t) = len s + len t.
Proof. unfold len. rewrite length_app. lia. Qed.

Lemma slice_to_nonneg {A} (s : list A) n :
  0 <= n -> slice_to s n = take (Z.to_nat n) s.
Proof. intros H. unfold slice_to. destruct (Z.ltb_spec n 0); [lia | done]. Qed.

Lemma slice_from_nonneg {A} (s : list A) n :
  0 <= n -> slice_from s n = drop (Z.to_nat n) s.
Proof. intros H. unfold slice_from. destruct (Z.ltb_spec n 0); [lia | done]. Qed.

Lemma slice_to_from {A} (s : list A) n : slice_to s n ++ slice_from s n = s.
Proof.
  unfold slice_to, slice_from. destruct (n <? 0); apply take_drop.
Qed.

Lemma len_slice_to {A} (s : list A) n :
  0 <= n -> len (slice_to s n) = Z.min n (len s).
Proof.
  intros H. rewrite slice_to_nonneg by done. unfold len.
  rewrite length_take. lia.
Qed.

Lemma slice_from_cons {A} (s : list A) n x :
  0 <= n -> s !! Z.to_nat n = Some x ->
  slice_from s n = [x] ++ slice_from s (n + 1).
Proof.
  intros Hn Hx. rewrite !slice_from_nonneg by lia.
  rewrite (drop_S _ _ _ Hx).
  replace (Z.to_nat (n + 1)) with (S (Z.to_nat n)) by lia. done.
Qed.

Lemma get_nonneg {A} (s : list A) n :
  0 <= n -> get s n = s !! Z.to_nat n.
Proof. intros H. unfold get. destruct (Z.ltb_spec n 0); [lia | done]. Qed.

(** [rfind_scan] returns [last] when the character does not occur, and
    otherwise the index of its last occurrence. *)
Lemma rfind_scan_spec c s : forall i last,
  let r := rfind_scan c s i last in
  (r = last /\ c ∉ s) \/
  (i <= r < i + len s /\ s !! Z.to_nat (r - i) = Some c /\
   forall j : nat, (Z.to_nat (r - i) < j)%nat -> s !! j <> Some c).
Proof.
  induction s as [|x s IH]; intros i last; simpl.
  - left. split; [done | apply not_elem_of_nil].
  - specialize (IH (i + 1) (if N.eqb x c then i else last)).
    simpl in IH. unfold len in *. simpl length.
    destruct IH as [[Hr Hno] | (Hrange & Hat & Hlast)].
    + destruct (N.eqb_spec x c) as [-> | Hne].
      * right. rewrite Hr. replace (i - i) with 0 by lia. simpl.
        split; [lia |]. split; [done |].
        intros [|j] Hj; [lia |]. simpl. intros Hin.
        apply Hno. eapply list_elem_of_lookup_2; eauto.
      * left. split; [done |]. rewrite not_elem_of_cons. split; congruence.
    + right. split; [lia |].
      replace (Z.to_nat (rfind_scan c s (i + 1) (if N.eqb x c then i else last) - i))
        with (S (Z.to_nat (rfind_scan c s (i + 1) (if N.eqb x c then i else last) - (i + 1))))
        by lia.
      simpl. split; [done |].
      intros [|j] Hj; [lia |]. simpl. apply Hlast. lia.
Qed.

(** What [rfind] returns for a non-negative [stop]. *)
Lemma rfind_spec s c stop :
  0 <= stop ->
  let r := rfind s c stop in
  (r = -1 /\ forall j : nat, (j < Z.to_nat stop)%nat -> s !! j <> Some c) \/
  (0 <= r < stop /\ r < len s /\ s !! Z.to_nat r = Some c /\
   forall j : nat, (Z.to_nat r < j < Z.to_nat stop)%nat -> s !! j <> Some c).
Proof.
  intros Hstop. unfold rfind. rewrite slice_to_nonneg by done.
  pose proof (rfind_scan_spec c (take (Z.to_nat stop) s) 0 (-1)) as H.
  simpl in H. destruct H as [[Hr Hno] | (Hrange & Hat & Hlast)].
  - left. split; [done |]. intros j Hj Hin. apply Hno.
    eapply list_elem_of_lookup_2. rewrite lookup_take_lt; eauto.
  - right. unfold len in Hrange. rewrite length_take in Hrange.
    rewrite Z.sub_0_r in Hat, Hlast.
    assert (Hlt : (Z.to_nat (rfind_scan c (take (Z.to_nat stop) s) 0 (-1)) < Z.to_nat stop)%nat) by lia.
    rewrite lookup_take_lt in Hat by done.
    unfold len. repeat split; try lia; try done.
    intros j Hj Hin. apply (Hlast j); [lia |].
    rewrite lookup_take_lt; [done | lia].
Qed.

End PyFacts.

(** ** The chunking loop, one iteration at a time *)

Ltac chunk_done :=
  repeat split;
  try done; try lia; try (by left); try (by right);
  try (by destruct (Py.len _ =? 0)).

Section Chunker.
Import Py.
Variable escape_mentions : text -> text.

(** The three ways one iteration can go, for an iteration that is not cut
    off by the counter: nothing is sent and the loop stops; the whole
    remainder is sent and the loop stops; or a chunk is cut off, possibly
    followed by one consumed newline, and the loop goes on with the rest. *)
Lemma write_loop_cases fuel i referenced rem :
  i < 10 ->
  let r := rfind rem newline 2000 in
  (write_loop (S fuel) i referenced rem = [] /\
   (rem = [] \/ (r = 0 /\ 2000 < len rem)))
  \/
  (write_loop (S fuel) i referenced rem = [mkSend rem (negb referenced)] /\
   r = 0 /\ 0 < len rem <= 2000)
  \/
  (exists chunk sep rest,
     rem = chunk ++ sep ++ rest /\
     (sep = [] \/ sep = [newline]) /\
     0 < len chunk <= 2000 /\
     (r <> -1 ->
      0 < r /\ chunk = slice_to rem r /\ sep = [newline] /\
      rest = slice_from rem (r + 1)) /\
     (r = -1 -> chunk = slice_to rem 2000) /\
     write_loop (S fuel) i referenced rem =
       mkSend chunk (negb referenced) ::
         (if len rest =? 0 then [] else write_loop fuel (i + 1) true rest)).
Proof.
  intros Hi r. cbn [write_loop].
  destruct (Z.ltb_spec 10 (i + 1)) as [|_]; [lia |].
  fold r. pose proof (rfind_spec rem newline 2000 ltac:(lia)) as Hr.
  fold r in Hr. cbv zeta in Hr.
  pose proof (len_nonneg rem) as Hlen.
  destruct Hr as [[Hr Hno] | (Hrange & Hrlen & Hat & Hlast)].
  - (* no newline in the window *)
    rewrite Hr. change (-1 =? -1) with true. cbv iota.
    destruct (Z.leb_spec (len rem) 2000) as [Hle | Hgt].
    + (* the remainder fits: it is sent whole *)
      rewrite slice_to_nonneg by lia.
      rewrite take_ge by (unfold len in *; lia).
      destruct (Z.eqb_spec (len rem) 0) as [H0 | H0].
      * left. apply len_nil_iff in H0. subst rem. simpl. split; [done | by left].
      * right. right. exists rem, [], [].
        rewrite andb_false_l. cbv iota.
        destruct (Z.eqb_spec (len rem) 0); [lia |].
        destruct (Z.ltb_spec (len rem) (len rem)); [lia |].
        rewrite andb_false_l. rewrite (slice_from_nonneg rem (len rem)) by lia.
        rewrite (drop_ge rem (Z.to_nat (len rem))) by (unfold len in *; lia).
        change (len [] =? 0) with true. cbv iota.
        rewrite app_nil_r.
        chunk_done.
        intros _. rewrite slice_to_nonneg by lia.
        rewrite take_ge; [done | unfold len in *; lia].
    + (* cut at 2000 *)
      right. right.
      assert (Hc : len (slice_to rem 2000) = 2000)
        by (rewrite len_slice_to by lia; lia).
      rewrite Hc. change (2000 =? 0) with false. rewrite andb_false_l.
      cbv iota. rewrite Hc. change (2000 =? 0) with false. cbv iota.
      destruct (Z.ltb_spec 2000 (len rem)) as [_|]; [| lia].
      rewrite andb_true_l.
      destruct (bool_decide_reflect (get rem 2000 = Some newline)) as [Hnl | Hnl].
      * exists (slice_to rem 2000), [newline], (slice_from rem (2000 + 1)).
        split.
        { rewrite <- (slice_to_from rem 2000) at 1. f_equal.
          rewrite get_nonneg in Hnl by lia.
          by apply slice_from_cons. }
        chunk_done.
      * exists (slice_to rem 2000), [], (slice_from rem 2000).
        split; [by rewrite app_nil_l, slice_to_from |].
        chunk_done.
  - (* the last newline of the window is at [r] *)
    destruct (Z.eqb_spec r (-1)) as [|_]; [lia |].
    assert (Hc : len (slice_to rem r) = r) by (rewrite len_slice_to by lia; lia).
    rewrite Hc.
    destruct (Z.eqb_spec r 0) as [H0 | H0].
    + (* the newline opens the remainder *)
      rewrite andb_true_l.
      destruct (Z.ltb_spec 0 (len rem)) as [_|]; [| lia].
      rewrite andb_true_l.
      destruct (Z.leb_spec (len rem) 2000) as [Hle | Hgt].
      * right. left. cbv iota.
        destruct (Z.eqb_spec (len rem) 0); [lia |].
        split; [| split; [done | lia]].
        by destruct (len _ =? 0).
      * left. cbv iota. rewrite Hc.
        destruct (Z.eqb_spec r 0); [| lia].
        split; [done |]. right. split; [done | lia].
    + right. right. rewrite andb_false_l. cbv iota. rewrite Hc.
      destruct (Z.eqb_spec r 0); [lia |].
      destruct (Z.ltb_spec r (len rem)) as [_|]; [| lia].
      rewrite andb_true_l.
      rewrite get_nonneg by lia.
      destruct (bool_decide_reflect (rem !! Z.to_nat r = Some newline)); [| done].
      exists (slice_to rem r), [newline], (slice_from rem (r + 1)).
      split.
      { rewrite <- (slice_to_from rem r) at 1. f_equal.
        apply slice_from_cons; [lia | done]. }
      chunk_done.
Qed.

(** Eleven iterations are enough: more fuel changes nothing. *)
Lemma write_loop_fuel f1 : forall f2 i referenced rem,
  10 - i < Z.of_nat f1 -> 10 - i < Z.of_nat f2 ->
  write_loop f1 i referenced rem = write_loop f2 i referenced rem.
Proof.
  induction f1 as [|f1 IH]; intros [|f2] i referenced rem H1 H2;
    cbn [write_loop].
  - done.
  - destruct (Z.ltb_spec 10 (i + 1)); [done | lia].
  - destruct (Z.ltb_spec 10 (i + 1)); [done | lia].
  - destruct (Z.ltb_spec 10 (i + 1)); [done |].
    repeat case_match; try done; f_equal; apply IH; lia.
Qed.

(** The loop sends at most [10 - i] more messages. *)
Lemma write_loop_count fuel : forall i referenced rem,
  i <= 10 ->
  Z.of_nat (length (write_loop fuel i referenced rem)) <= 10 - i.
Proof.
  induction fuel as [|fuel IH]; intros i referenced rem Hi.
  - simpl. lia.
  - destruct (Z.eq_dec i 10) as [-> | Hne].
    + cbn [write_loop]. change (10 <? 10 + 1) with true. simpl. lia.
    + destruct (write_loop_cases fuel i referenced rem ltac:(lia))
        as [[-> _] | [[-> _] | (chunk & sep & rest & _ & _ & _ & _ & _ & ->)]].
      * simpl. lia.
      * simpl length. lia.
      * destruct (len rest =? 0); simpl length; [lia |].
        specialize (IH (i + 1) true rest ltac:(lia)). lia.
Qed.

(** No message of the loop is longer than 2000 characters, and none is
    empty. *)
Lemma write_loop_length fuel : forall i referenced rem,
  Forall (fun m => 0 < len (payload m) <= 2000)
         (write_loop fuel i referenced rem).
Proof.
  induction fuel as [|fuel IH]; intros i referenced rem.
  - constructor.
  - destruct (Z.lt_ge_cases i 10) as [Hi | Hi].
    + destruct (write_loop_cases fuel i referenced rem Hi)
        as [[-> _] | [(-> & _ & Hlen) | (chunk & sep & rest & _ & _ & Hlen & _ & _ & ->)]].
      * constructor.
      * constructor; [done | constructor].
      * constructor; [done |]. destruct (len rest =? 0); [constructor | apply IH].
    + cbn [write_loop]. destruct (Z.ltb_spec 10 (i + 1)); [constructor | lia].
Qed.

(** The remaining text is the sent chunks put together again, followed by
    what the loop left unsent; text is left unsent only when the counter
    ran out or an empty slice came up. *)
Lemma write_loop_rejoin fuel : forall i referenced rem,
  i <= 10 ->
  exists consumed dropped,
    rem = rejoin (map payload (write_loop fuel i referenced rem)) consumed
            ++ dropped /\
    (10 - i < Z.of_nat fuel ->
     dropped = [] \/
     Z.of_nat (length (write_loop fuel i referenced rem)) = 10 - i \/
     empty_slice dropped).
Proof.
  induction fuel as [|fuel IH]; intros i referenced rem Hi.
  - exists [], rem. split; [done | lia].
  - destruct (Z.eq_dec i 10) as [-> | Hne].
    { cbn [write_loop]. change (10 <? 10 + 1) with true.
      exists [], rem. split; [done |]. intros _. right. by left. }
    destruct (write_loop_cases fuel i referenced rem ltac:(lia))
      as [[-> Hstop] | [(-> & _ & _) | (chunk & sep & rest & Hrem & Hsep & _ & _ & _ & ->)]].
    + exists [], rem. split; [done |]. intros _.
      destruct Hstop as [-> | Hslice]; [by left | right; by right].
    + exists [false], []. simpl. split; [by rewrite !app_nil_r | by left].
    + destruct (Z.eqb_spec (len rest) 0) as [H0 | H0].
      * apply len_nil_iff in H0. subst rest.
        exists [bool_decide (sep = [newline])], []. simpl.
        split; [| by left].
        destruct Hsep as [-> | ->]; subst rem; simpl; by rewrite ?app_nil_r.
      * destruct (IH (i + 1) true rest ltac:(lia))
          as (consumed & dropped & Hrest & Hwhy).
        exists (bool_decide (sep = [newline]) :: consumed), dropped.
        split.
        { cbn [map rejoin hd tl payload]. rewrite <- !app_assoc, <- Hrest.
          destruct Hsep as [-> | ->]; subst rem; simpl; done. }
        intros Hfuel. simpl length.
        destruct (Hwhy ltac:(lia)) as [? | [? | ?]];
          [by left | right; left; lia | right; by right].
Qed.

Lemma rfind_nil c stop : 0 <= stop -> rfind [] c stop = -1.
Proof.
  intros H. unfold rfind. rewrite slice_to_nonneg by done.
  by rewrite take_nil.
Qed.

(** A newline inside the window, not at its start: the chunk is the text
    before the last such newline, and that newline is consumed. *)
Lemma write_loop_newline fuel i referenced rem :
  i < 10 ->
  let r := rfind rem newline 2000 in
  0 < r ->
  write_loop (S fuel) i referenced rem =
    mkSend (slice_to rem r) (negb referenced) ::
      (if len (slice_from rem (r + 1)) =? 0 then []
       else write_loop fuel (i + 1) true (slice_from rem (r + 1))).
Proof.
  intros Hi r Hr.
  destruct (write_loop_cases fuel i referenced rem Hi)
    as [[_ [-> | [? _]]] | [(_ & ? & _) | (chunk & sep & rest & _ & _ & _ & Hnl & _ & ->)]].
  - subst r. rewrite rfind_nil in Hr; lia.
  - subst r. lia.
  - subst r. lia.
  - fold r in Hnl. destruct Hnl as (_ & -> & _ & ->); [lia | done].
Qed.

(** The only newline of the window opens the remaining text: nothing is
    cut.  The remainder goes out whole when it fits in one message, and
    the loop stops without sending when it does not. *)
Lemma write_loop_leading_newline fuel i referenced rem :
  i < 10 ->
  rfind rem newline 2000 = 0 ->
  write_loop (S fuel) i referenced rem =
    if len rem <=? 2000 then [mkSend rem (negb referenced)] else [].
Proof.
  intros Hi Hr.
  destruct (write_loop_cases fuel i referenced rem Hi)
    as [[-> [-> | [_ ?]]] | [(-> & _ & ?) | (chunk & sep & rest & _ & _ & _ & Hnl & _ & _)]].
  - rewrite rfind_nil in Hr; lia.
  - destruct (Z.leb_spec (len rem) 2000); [lia | done].
  - destruct (Z.leb_spec (len rem) 2000); [done | lia].
  - destruct Hnl; lia.
Qed.

(** C1 (amended): a sanitized text that is not empty is the messages of
    [write] put together again, with a newline put back where one was
    consumed, followed by the text that was not sent; text stays unsent
    only when ten messages were sent or when an empty slice came up.  For
    an empty sanitized text the one message sent is the placeholder. *)
Theorem chunker_rejoin (s : text) :
  let sanitized := sanitize escape_mentions s in
  (sanitized <> [] ->
   exists consumed dropped,
     sanitized =
       rejoin (map payload (write escape_mentions s)) consumed ++ dropped /\
     (dropped = [] \/
      length (write escape_mentions s) = 10%nat \/
      empty_slice dropped)) /\
  (sanitized = [] ->
   write escape_mentions s = [mkSend NOTHING_TO_SAY true]).
Proof.
  intros sanitized. split.
  - intros Hne.
    assert (Hout : outgoing escape_mentions s = sanitized).
    { unfold outgoing. fold sanitized.
      destruct (Z.eqb_spec (len sanitized) 0) as [H0 | _]; [| done].
      by apply len_nil_iff in H0. }
    unfold write, write_value. rewrite Hout.
    destruct (2000 <=? len sanitized).
    + destruct (write_loop_rejoin 11 0 false sanitized ltac:(lia))
        as (consumed & dropped & Heq & Hwhy).
      exists consumed, dropped. split; [done |].
      destruct (Hwhy ltac:(lia)) as [? | [? | ?]];
        [by left | right; left; lia | right; by right].
    + exists [], []. simpl. split; [by rewrite !app_nil_r | by left].
  - intros Hnil. unfold write, outgoing. fold sanitized. by rewrite Hnil.
Qed.

(** C2 (amended): [write] sends at most ten messages, none longer than
    2000 characters; in an iteration whose window holds a newline after
    its first character the chunk ends before the last newline of the
    window, and when the only newline of the window is its first
    character nothing is cut: the remainder is sent whole if it fits and
    the loop stops otherwise. *)
Theorem chunker_bounds (s : text) :
  (length (write escape_mentions s) <= 10)%nat /\
  Forall (fun m => len (payload m) <= 2000) (write escape_mentions s) /\
  (forall fuel i referenced rem,
     i < 10 ->
     let r := rfind rem newline 2000 in
     (0 < r ->
      write_loop (S fuel) i referenced rem =
        mkSend (slice_to rem r) (negb referenced) ::
          (if len (slice_from rem (r + 1)) =? 0 then []
           else write_loop fuel (i + 1) true (slice_from rem (r + 1)))) /\
     (r = 0 ->
      write_loop (S fuel) i referenced rem =
        if len rem <=? 2000 then [mkSend rem (negb referenced)] else [])).
Proof.
  split; [| split].
  - unfold write, write_value. case_match; [| simpl; lia].
    pose proof (write_loop_count 11 0 false (outgoing escape_mentions s)).
    lia.
  - unfold write, write_value.
    destruct (Z.leb_spec 2000 (len (outgoing escape_mentions s))).
    + eapply Forall_impl; [apply write_loop_length |].
      intros m Hm. simpl in Hm. lia.
    + repeat constructor. simpl. lia.
  - intros fuel i referenced rem Hi r. split.
    + by apply write_loop_newline.
    + by apply write_loop_leading_newline.
Qed.

End Chunker.

(** ** The chunker on examples *)

Example write_short :
  write Discord.escape_mentions (str "  hello @everyone <@&12345678901234567> ") =
    [mkSend (str "hello @" ++ zero_width_space :: str "everyone <@"
             ++ zero_width_space :: str "&12345678901234567>") true].
Proof. reflexivity. Qed.

Example write_4500 :
  map (fun s => (Py.len (payload s), reference s)) (write Discord.escape_mentions (rep 4500 "a")) =
    [(2000, true); (2000, false); (500, false)].
Proof. vm_compute. reflexivity. Qed.

Example write_newlines :
  write Discord.escape_mentions
    (rep 1500 "a" ++ newline :: rep 400 "b" ++ newline :: rep 300 "c") =
    [mkSend (rep 1500 "a" ++ newline :: rep 400 "b") true;
     mkSend (rep 300 "c") false].
Proof. vm_compute. reflexivity. Qed.

(** C1, as first stated, fails: [stalled] is its own sanitized text, only
    its first 1999 characters are sent, one message, and the 2001
    characters after the consumed newline are left out although the cap of
    ten messages was not reached. *)
Lemma chunker_rejoin_counterexample :
  sanitize Discord.escape_mentions stalled = stalled /\
  write Discord.escape_mentions stalled = [mkSend (rep 1999 "a") true] /\
  ~ exists consumed dropped,
      sanitize Discord.escape_mentions stalled =
        rejoin (map payload (write Discord.escape_mentions stalled)) consumed
          ++ dropped /\
      (dropped = [] \/ length (write Discord.escape_mentions stalled) = 10%nat).
Proof.
  assert (Hw : write Discord.escape_mentions stalled = [mkSend (rep 1999 "a") true])
    by (vm_compute; reflexivity).
  split; [vm_compute; reflexivity |]. split; [exact Hw |].
  intros (consumed & dropped & Heq & Hdropped). rewrite Hw in Heq, Hdropped.
  apply (f_equal Py.len) in Heq.
  cbn [map rejoin payload] in Heq. rewrite !len_app in Heq.
  assert (Hv : Py.len (sanitize Discord.escape_mentions stalled) = 4001)
    by (vm_compute; reflexivity).
  assert (Ha : Py.len (rep 1999 "a") = 1999) by (vm_compute; reflexivity).
  assert (Hs : Py.len (if hd false consumed then [newline] else []) <= 1)
    by (destruct (hd false consumed); vm_compute; discriminate).
  rewrite Hv, Ha in Heq. change (Py.len (@nil N)) with 0 in Heq.
  destruct Hdropped as [Hnil | Hten].
  - rewrite Hnil in Heq. change (Py.len (@nil N)) with 0 in Heq. lia.
  - cbn [length] in Hten. lia.
Qed.

Lemma chunker_rejoin_witness :
  sanitize Discord.escape_mentions (rep 4500 "a") <> [] /\
  exists consumed dropped,
    sanitize Discord.escape_mentions (rep 4500 "a") =
      rejoin (map payload (write Discord.escape_mentions (rep 4500 "a")))
        consumed ++ dropped /\
    (dropped = [] \/
     length (write Discord.escape_mentions (rep 4500 "a")) = 10%nat \/
     empty_slice dropped).
Proof.
  assert (H : sanitize Discord.escape_mentions (rep 4500 "a") <> [])
    by (by vm_compute).
  split; [exact H |].
  exact (proj1 (chunker_rejoin Discord.escape_mentions (rep 4500 "a")) H).
Defined.

(** C2, as first stated, fails: the second iteration on [led_by_newline]
    finds the last newline of its window at index 0, and the message it
    sends is the whole remainder, not the text before that newline. *)
Lemma chunker_bounds_counterexample :
  write Discord.escape_mentions led_by_newline =
    [mkSend (rep 1999 "a") true; mkSend (newline :: str "bbb") false] /\
  write_value led_by_newline =
    mkSend (rep 1999 "a") true :: write_loop 10 1 true (newline :: str "bbb") /\
  Py.rfind (newline :: str "bbb") newline 2000 = 0 /\
  ~ exists rest,
      write_loop 10 1 true (newline :: str "bbb") =
        mkSend (Py.slice_to (newline :: str "bbb")
                  (Py.rfind (newline :: str "bbb") newline 2000)) false :: rest.
Proof.
  split; [vm_compute; reflexivity |].
  split; [vm_compute; reflexivity |].
  split; [vm_compute; reflexivity |].
  intros [rest H]. vm_compute in H. discriminate H.
Qed.

Lemma chunker_bounds_witness :
  let rem := str "ab" ++ newline :: str "cd" in
  0 < 10 /\ 0 < Py.rfind rem newline 2000 /\
  write_loop 11 0 false rem =
    mkSend (Py.slice_to rem (Py.rfind rem newline 2000)) (negb false) ::
      (if Py.len (Py.slice_from rem (Py.rfind rem newline 2000 + 1)) =? 0
       then []
       else write_loop 10 (0 + 1) true
              (Py.slice_from rem (Py.rfind rem newline 2000 + 1))).
Proof.
  intros rem.
  split; [lia |]. split; [vm_compute; reflexivity |].
  apply (proj1 (proj2 (proj2 (chunker_bounds Discord.escape_mentions (str "hi")))
                  10%nat 0 false rem ltac:(lia))).
  vm_compute. reflexivity.
Defined.

(** ** The session store *)

Section SessionStore.
Import Py.
Variable self : Bot.

Lemma lastn_all {A} (k : nat) (l : list A) :
  (length l <= k)%nat -> lastn k l = l.
Proof. intros H. unfold lastn. by replace (length l - k)%nat with 0%nat by lia. Qed.

Lemma length_lastn {A} (k : nat) (l : list A) :
  length (lastn k l) = Nat.min k (length l).
Proof. unfold lastn. rewrite length_drop. lia. Qed.

Lemma lastn_cons {A} (k : nat) (x : A) (l : list A) :
  (k <= length l)%nat -> lastn k (x :: l) = lastn k l.
Proof.
  intros H. unfold lastn. simpl length.
  by replace (S (length l) - k)%nat with (S (length l - k)) by lia.
Qed.

Lemma lastn_snoc {A} (k : nat) (l : list A) (x : A) :
  lastn k l ++ [x] = lastn (S k) (l ++ [x]).
Proof.
  unfold lastn. rewrite length_app. simpl length.
  replace (length l + 1 - S k)%nat with (length l - k)%nat by lia.
  rewrite drop_app_le by lia. done.
Qed.

Lemma lastn_app_lastn {A} (k : nat) (l r : list A) :
  lastn k (lastn k l ++ r) = lastn k (l ++ r).
Proof.
  destruct (Nat.le_gt_cases (length l) k) as [Hle | Hgt].
  - by rewrite (lastn_all k l).
  - unfold lastn. rewrite !length_app, length_drop.
    replace (length l - (length l - k) + length r - k)%nat
      with (length r) by lia.
    replace (length l + length r - k)%nat
      with ((length l - k) + length r)%nat by lia.
    rewrite <- drop_drop. rewrite (drop_app_le l r) by lia. done.
Qed.

Lemma lastn_app_long {A} (k : nat) (l r : list A) :
  (k <= length r)%nat -> lastn k (l ++ r) = lastn k r.
Proof.
  intros H. unfold lastn. rewrite length_app.
  replace (length l + length r - k)%nat
    with (length l + (length r - k))%nat by lia.
  by rewrite drop_app_add.
Qed.

(** With a positive maximum the eviction loop keeps the last
    [chat_max_length - 1] turns and does not raise. *)
Lemma evict_ok (messages : list Turn) :
  0 < chat_max_length self ->
  evict self messages =
    Ok (lastn (Z.to_nat (chat_max_length self - 1)) messages).
Proof.
  intros Hmax. induction messages as [|t messages IH]; simpl.
  - destruct (Z.leb_spec (chat_max_length self) 0); [lia | done].
  - destruct (Z.leb_spec (chat_max_length self) (len (t :: messages)))
      as [Hle | Hgt]; unfold len in *; simpl length in *.
    + rewrite IH. f_equal. symmetry. apply lastn_cons. lia.
    + f_equal. symmetry. apply lastn_all. simpl. lia.
Qed.

(** With a maximum of zero or less the eviction loop pops from the empty
    list. *)
Lemma evict_raises (messages : list Turn) :
  chat_max_length self <= 0 -> evict self messages = Raise IndexError.
Proof.
  intros Hmax. induction messages as [|t messages IH]; simpl.
  - destruct (Z.leb_spec (chat_max_length self) 0); [done | lia].
  - destruct (Z.leb_spec (chat_max_length self) (len (t :: messages)));
      [done |]. pose proof (len_nonneg (t :: messages)). lia.
Qed.

Lemma load_channel_insert (redis : Redis) channel_id messages :
  load_channel (<[key channel_id := messages]> redis) channel_id = messages.
Proof. unfold load_channel. by rewrite lookup_insert_eq. Qed.

(** One append of a non-blank message, with a positive maximum. *)
Lemma save_message_ok (redis : Redis) channel_id message role :
  0 < chat_max_length self ->
  strip message <> [] ->
  save_message self redis channel_id message role =
    Ok (<[key channel_id :=
            lastn (Z.to_nat (chat_max_length self))
              (load_channel redis channel_id
                 ++ [turn_of self (message, role)])]> redis).
Proof.
  intros Hmax Hblank. unfold save_message.
  rewrite bool_decide_eq_false_2 by done.
  rewrite evict_ok by done. rewrite lastn_snoc.
  by replace (S (Z.to_nat (chat_max_length self - 1)))
    with (Z.to_nat (chat_max_length self)) by lia.
Qed.

(** A run of appends of non-blank messages, with a positive maximum,
    leaves the last [chat_max_length] turns of the old sequence followed
    by the new turns. *)
Lemma appends_ok channel_id items : forall (item : text * text) (redis : Redis),
  0 < chat_max_length self ->
  Forall (fun item => strip item.1 <> []) (item :: items) ->
  exists redis' : Redis,
    appends self redis channel_id (item :: items) = Ok redis' /\
    load_channel redis' channel_id =
      lastn (Z.to_nat (chat_max_length self))
        (load_channel redis channel_id ++ map (turn_of self) (item :: items)).
Proof.
  induction items as [|item' items IH]; intros [message role] redis Hmax Hall;
    apply Forall_cons in Hall as [Hblank Hall]; simpl in Hblank;
    cbn [appends]; rewrite save_message_ok by done.
  - eexists. split; [done |]. by rewrite load_channel_insert.
  - destruct (IH item' (<[key channel_id :=
                lastn (Z.to_nat (chat_max_length self))
                  (load_channel redis channel_id
                     ++ [turn_of self (message, role)])]> redis) Hmax Hall)
      as (redis' & Hrun & Hload).
    exists redis'. split; [done |].
    rewrite Hload, load_channel_insert, lastn_app_lastn.
    by rewrite <- app_assoc.
Qed.

(** C3 (amended): with a maximum turn count of at least one, a run of
    more than [chat_max_length] appends of non-blank messages to one
    channel completes, and the channel then holds exactly
    [chat_max_length] turns: the turns of the last [chat_max_length]
    appends, in the order of the appends. *)
Theorem appends_fifo (redis : Redis) channel_id items :
  0 < chat_max_length self ->
  Forall (fun item => strip item.1 <> []) items ->
  chat_max_length self < len items ->
  exists redis' : Redis,
    appends self redis channel_id items = Ok redis' /\
    len (load_channel redis' channel_id) = chat_max_length self /\
    load_channel redis' channel_id =
      lastn (Z.to_nat (chat_max_length self)) (map (turn_of self) items).
Proof.
  intros Hmax Hall Hlong. destruct items as [|item items].
  { unfold len in Hlong. simpl in Hlong. lia. }
  destruct (appends_ok channel_id items item redis Hmax Hall)
    as (redis' & Hrun & Hload).
  exists redis'. split; [done |].
  rewrite Hload, lastn_app_long
    by (rewrite length_map; unfold len in Hlong; lia).
  split; [| done].
  unfold len in *. rewrite length_lastn, length_map. lia.
Qed.

Lemma len_slice_from_neg {A} (s : list A) n :
  0 < n <= len s -> slice_from s (- n) = lastn (Z.to_nat n) s.
Proof.
  intros H. unfold slice_from, lastn.
  destruct (Z.ltb_spec (- n) 0); [| lia].
  f_equal. unfold len in *. lia.
Qed.

(** With a positive per-turn cap, [save_message] on a non-blank message
    longer than the cap stores, as the last turn of the channel, the last
    [msg_max_chars] characters of the message; this suffix has exactly
    [msg_max_chars] characters.  The one case without a stored turn is the
    [IndexError] of the eviction loop under a maximum turn count of zero or
    less. *)
Lemma save_message_keeps_suffix (redis : Redis) channel_id message role :
  0 < msg_max_chars self ->
  msg_max_chars self < len message ->
  strip message <> [] ->
  let suffix := lastn (Z.to_nat (msg_max_chars self)) message in
  len suffix = msg_max_chars self /\
  truncate self message = suffix /\
  match save_message self redis channel_id message role with
  | Ok redis' =>
      last (load_channel redis' channel_id) = Some (mkTurn role suffix)
  | Raise e => e = IndexError /\ chat_max_length self <= 0
  end.
Proof.
  intros Hcap Hlong Hblank suffix.
  assert (Htr : truncate self message = suffix).
  { unfold truncate. destruct (Z.ltb_spec (msg_max_chars self) (len message));
      [| lia]. apply len_slice_from_neg. lia. }
  split; [| split; [done |]].
  - subst suffix. unfold len in *. rewrite length_lastn. lia.
  - unfold save_message. rewrite bool_decide_eq_false_2 by done.
    destruct (Z.lt_ge_cases 0 (chat_max_length self)) as [Hmax | Hmax].
    + rewrite evict_ok by done. rewrite load_channel_insert, last_snoc.
      by rewrite Htr.
    + rewrite evict_raises by lia. split; [done | lia].
Qed.

End SessionStore.

(** ** The session store on examples *)

Example appends_501 :
  exists redis' : Redis,
    appends default_bot ∅ (str "7")
      (replicate 501 (str "hello", str "user")) = Ok redis' /\
    load_channel redis' (str "7") =
      replicate 500 (mkTurn (str "user") (str "hello")).
Proof.
  destruct (appends_ok default_bot (str "7")
              (replicate 500 (str "hello", str "user"))
              (str "hello", str "user") ∅)
    as (redis' & Hrun & Hload).
  - reflexivity.
  - apply (Forall_replicate _ 501). by vm_compute.
  - exists redis'. split; [exact Hrun |]. rewrite Hload.
    vm_compute. reflexivity.
Qed.

Lemma appends_fifo_witness :
  let items := [(str "one", str "user"); (str "two", str "assistant");
                (str "three", str "user")] in
  0 < chat_max_length short_memory /\
  Forall (fun item => Py.strip item.1 <> []) items /\
  chat_max_length short_memory < Py.len items /\
  exists redis' : Redis,
    appends short_memory ∅ (str "7") items = Ok redis' /\
    Py.len (load_channel redis' (str "7")) = chat_max_length short_memory /\
    load_channel redis' (str "7") =
      lastn (Z.to_nat (chat_max_length short_memory))
        (map (turn_of short_memory) items).
Proof.
  intros items.
  assert (H1 : 0 < chat_max_length short_memory) by reflexivity.
  assert (H2 : Forall (fun item => Py.strip item.1 <> []) items)
    by (repeat constructor; by vm_compute).
  assert (H3 : chat_max_length short_memory < Py.len items) by reflexivity.
  split; [exact H1 |]. split; [exact H2 |]. split; [exact H3 |].
  exact (appends_fifo short_memory ∅ (str "7") items H1 H2 H3).
Defined.

(** C3, as first stated, fails.  A content of white space only is not
    empty, yet [save_message] skips it: three such appends under
    [--chat-max-length 2] leave the channel empty.  And under
    [--chat-max-length 0] every append raises [IndexError] in the eviction
    loop before anything is written, so a run of appends does not complete
    and a channel that already holds a turn keeps it. *)
Lemma appends_fifo_counterexample :
  let blanks := replicate 3 (str " ", USER) in
  let items := [(str "hi", USER)] in
  (Forall (fun item => item.1 <> []) blanks /\
   chat_max_length short_memory < Py.len blanks /\
   appends short_memory ∅ (str "7") blanks = Ok ∅ /\
   Py.len (load_channel ∅ (str "7")) <> chat_max_length short_memory) /\
  (Forall (fun item => Py.strip item.1 <> []) items /\
   chat_max_length no_memory < Py.len items /\
   save_message no_memory old_history (str "7") (str "hi") USER
     = Raise IndexError /\
   Py.len (load_channel old_history (str "7")) <> chat_max_length no_memory /\
   ~ exists redis' : Redis,
       appends no_memory old_history (str "7") items = Ok redis' /\
       Py.len (load_channel redis' (str "7")) = chat_max_length no_memory /\
       load_channel redis' (str "7") =
         lastn (Z.to_nat (chat_max_length no_memory))
           (map (turn_of no_memory) items)).
Proof.
  intros blanks items. split.
  - split; [repeat constructor; by vm_compute |].
    split; [reflexivity |]. split; [reflexivity | by vm_compute].
  - assert (Hraise : save_message no_memory old_history (str "7") (str "hi") USER
                     = Raise IndexError).
    { unfold save_message. rewrite bool_decide_eq_false_2 by (by vm_compute).
      by rewrite evict_raises. }
    split; [repeat constructor; by vm_compute |].
    split; [reflexivity |]. split; [exact Hraise |].
    split; [by vm_compute |].
    intros (redis' & Hrun & _). cbn [appends items] in Hrun.
    rewrite Hraise in Hrun. discriminate Hrun.
Qed.

Example save_message_terse :
  0 < msg_max_chars terse /\
  msg_max_chars terse < Py.len (str "abcdef") /\
  Py.strip (str "abcdef") <> [] /\
  save_message terse ∅ (str "7") (str "abcdef") (str "user") =
    Ok {[ key (str "7") := [mkTurn (str "user") (str "def")] ]}.
Proof.
  assert (H1 : 0 < msg_max_chars terse) by reflexivity.
  assert (H2 : msg_max_chars terse < Py.len (str "abcdef")) by reflexivity.
  assert (H3 : Py.strip (str "abcdef") <> []) by (by vm_compute).
  split; [exact H1 |]. split; [exact H2 |]. split; [exact H3 |].
  pose proof (save_message_keeps_suffix terse ∅ (str "7") (str "abcdef")
                (str "user") H1 H2 H3) as (_ & Htr & _).
  unfold save_message. rewrite bool_decide_eq_false_2 by done.
  rewrite Htr. rewrite evict_ok by reflexivity.
  reflexivity.
Qed.

(** C4 at [--msg-max-chars 0]: the message is longer than the cap, and
    [message[-0:]] is the whole message, so all of it is stored where the
    suffix of length zero was to be kept. *)
Lemma save_message_zero_cap :
  msg_max_chars no_cap < Py.len (str "abc") /\
  save_message no_cap ∅ (str "7") (str "abc") USER =
    Ok {[ key (str "7") := [mkTurn USER (str "abc")] ]} /\
  str "abc" <> lastn (Z.to_nat (msg_max_chars no_cap)) (str "abc") /\
  Py.len (str "abc") <> msg_max_chars no_cap.
Proof.
  split; [reflexivity |]. split.
  - unfold save_message. rewrite bool_decide_eq_false_2 by (by vm_compute).
    rewrite evict_ok by reflexivity. reflexivity.
  - split; by vm_compute.
Qed.

(** ** The trimmer *)

Section Trimmer.
Import Py.
Variable self : Bot.

Lemma suffix_cons_cases {A} (s l : list A) (x : A) :
  s `suffix_of` x :: l -> s = x :: l \/ s `suffix_of` l.
Proof.
  destruct s as [|y s]; [right; apply suffix_nil | apply suffix_cons_inv].
Qed.

(** The loop returns a suffix of its input; every longer suffix is over
    budget, given that the input itself is when [excess] is positive; and
    the result is within budget unless it is empty. *)
Lemma trim_loop_spec (local_messages : list Turn) :
  let B := ctx self * 4 in
  let out := trim_loop self (len (Json.dumps local_messages) - B) local_messages in
  out `suffix_of` local_messages /\
  (len (Json.dumps out) <= B \/ out = []) /\
  (forall s, s `suffix_of` local_messages -> (length out < length s)%nat ->
             B < len (Json.dumps s)).
Proof.
  induction local_messages as [|t rest IH]; intros B out.
  - subst out. simpl. split; [done |]. split; [by right |].
    intros s Hs Hlen. apply suffix_nil_inv in Hs. subst s. simpl in Hlen. lia.
  - subst out. cbn [trim_loop]. fold B.
    destruct (Z.ltb_spec 0 (len (Json.dumps (t :: rest)) - B)) as [Hover | Hfit].
    + destruct IH as (Hsuf & Hfit & Hmax). fold B in Hsuf, Hfit, Hmax.
      split; [by apply suffix_cons_r |]. split; [done |].
      intros s Hs Hlen. apply suffix_cons_cases in Hs as [-> | Hs];
        [lia | by apply Hmax].
    + split; [done |]. split; [left; lia |].
      intros s Hs Hlen. apply suffix_length in Hs. lia.
Qed.

(** C5: the trimmer returns a suffix of the loaded sequence, so it only
    drops whole turns from the front and keeps the order and the turns as
    they are; the serialized suffix has at most [ctx * 4] characters, or
    else the result is empty and no suffix of the input is within the
    budget.  Every suffix longer than the result is over budget. *)
Theorem trim_suffix (local_messages : list Turn) :
  let B := ctx self * 4 in
  let out := trim self local_messages in
  out `suffix_of` local_messages /\
  (len (Json.dumps out) <= B \/
   (out = [] /\
    forall s, s `suffix_of` local_messages -> B < len (Json.dumps s))) /\
  (forall s, s `suffix_of` local_messages -> (length out < length s)%nat ->
             B < len (Json.dumps s)).
Proof.
  intros B out. subst out. unfold trim. fold B.
  destruct (Z.ltb_spec B (len (Json.dumps local_messages))) as [Hover | Hfit].
  - destruct (trim_loop_spec local_messages) as (Hsuf & Hfit & Hmax).
    fold B in Hsuf, Hfit, Hmax.
    split; [done |]. split; [| done].
    destruct (Z.le_gt_cases
                (len (Json.dumps (trim_loop self
                   (len (Json.dumps local_messages) - B) local_messages))) B)
      as [Hle | Hgt]; [by left |].
    destruct Hfit as [Hle | Hnil]; [lia |]. right. split; [done |].
    intros s Hs. rewrite Hnil in Hgt, Hmax.
    destruct s as [|t s]; [done |]. apply Hmax; [done | simpl; lia].
  - split; [done |]. split; [by left |].
    intros s Hs Hlen. apply suffix_length in Hs. lia.
Qed.

End Trimmer.

Example dumps_turn_example :
  Json.dumps [mkTurn (str "user") (str "hi" ++ [newline; 233%N])] =
    str "[{" ++ Json.dumps_str (str "role") ++ str ": "
      ++ Json.dumps_str (str "user") ++ str ", "
      ++ Json.dumps_str (str "content") ++ str ": "
      ++ Json.quote :: str "hi" ++ Json.backslash :: str "n"
      ++ Json.backslash :: str "u00e9" ++ Json.quote :: str "}]".
Proof. reflexivity. Qed.

Example trim_example :
  let t (s : text) := mkTurn (str "user") s in
  Py.len (Json.dumps [t (str "one"); t (str "two"); t (str "three")]) = 110 /\
  trim narrow [t (str "one"); t (str "two"); t (str "three")] =
    [t (str "two"); t (str "three")].
Proof. vm_compute. split; reflexivity. Qed.

(** ** The orchestrator *)

Section Chat.
Import Py.
Variable self : Bot.
Variable backend_ : Backend.

(** The eviction loop only drops turns from the front. *)
Lemma evict_suffix (messages kept : list Turn) :
  evict self messages = Ok kept -> kept `suffix_of` messages.
Proof.
  induction messages as [|t messages IH]; simpl.
  - case_match; [done |]. by intros [= <-].
  - case_match; [| by intros [= <-]].
    intros Hev. apply suffix_cons_r. by apply IH.
Qed.

(** One call of [save_message] leaves the channel as it was or puts one
    turn of the given role behind a suffix of what was there. *)
Lemma save_message_one_turn (redis redis' : Redis) channel_id message role_ :
  save_message self redis channel_id message role_ = Ok redis' ->
  redis' = redis \/
  exists kept t,
    kept `suffix_of` load_channel redis channel_id /\ role t = role_ /\
    load_channel redis' channel_id = kept ++ [t].
Proof.
  unfold save_message. case_match; [intros [= <-]; by left |].
  destruct (evict self (load_channel redis channel_id)) as [kept | e] eqn:Hev;
    [| done].
  intros [= <-]. right.
  exists kept, (mkTurn role_ (truncate self message)).
  split; [by apply evict_suffix |]. split; [done |].
  apply load_channel_insert.
Qed.

(** [IndexError] is the one exception [save_message] raises. *)
Lemma save_message_raises (redis : Redis) channel_id message role_ e :
  save_message self redis channel_id message role_ = Raise e ->
  e = IndexError /\ chat_max_length self <= 0.
Proof.
  unfold save_message. case_match; [done |].
  destruct (Z.lt_ge_cases 0 (chat_max_length self)) as [Hmax | Hmax].
  - by rewrite evict_ok.
  - rewrite evict_raises by lia. intros [= <-]. split; [done | lia].
Qed.

(** What [chat] does, by what the backend gives in the end. *)
Lemma chat_cases (redis : Redis) channel_id :
  let local_messages := trim self (load_channel redis channel_id) in
  match backend_outcome self backend_ local_messages with
  | Raise e => chat self backend_ redis channel_id = (UNABLE, redis)
  | Ok response =>
      if len response =? 0
      then chat self backend_ redis channel_id = (UNABLE, redis)
      else
        match save_message self redis channel_id response ASSISTANT with
        | Ok redis' => chat self backend_ redis channel_id = (response, redis')
        | Raise e => chat self backend_ redis channel_id = (UNABLE, redis)
        end
  end.
Proof.
  intros local_messages.
  unfold chat, backend_outcome, ollama_branch, single_shot, save_response,
    respond_with.
  fold local_messages.
  repeat (case_match; simplify_eq; try done);
    match goal with
    | H : save_message _ _ _ _ _ = Raise TypeError |- _ =>
        apply save_message_raises in H as [? _]; discriminate
    end.
Qed.

(** C8: [chat] leaves the store as it was, or as one call of
    [save_message] with the backend's non-empty text and the role
    [assistant] leaves it, which puts at most one turn into the channel;
    the store is as it was when the backend ends with an exception or an
    empty text, also when the streaming call ended with [TypeError] and
    the single-shot call was made in its place. *)
Theorem chat_appends_at_most_once (redis : Redis) channel_id :
  let local_messages := trim self (load_channel redis channel_id) in
  let outcome := backend_outcome self backend_ local_messages in
  let redis' := (chat self backend_ redis channel_id).2 in
  (redis' = redis \/
   exists response,
     outcome = Ok response /\ response <> [] /\
     save_message self redis channel_id response ASSISTANT = Ok redis') /\
  (load_channel redis' channel_id = load_channel redis channel_id \/
   exists kept t,
     kept `suffix_of` load_channel redis channel_id /\ role t = ASSISTANT /\
     load_channel redis' channel_id = kept ++ [t]) /\
  (forall e, outcome = Raise e -> redis' = redis) /\
  (outcome = Ok [] -> redis' = redis) /\
  (backend self = str "ollama" -> stream self = true ->
   (ollama_stream backend_ local_messages).2 = Some TypeError ->
   (exists e, ollama_chat backend_ local_messages = Failed e) \/
   ollama_chat backend_ local_messages = Replied [] ->
   redis' = redis).
Proof.
  intros local_messages outcome redis'.
  pose proof (chat_cases redis channel_id) as Hchat. cbv zeta in Hchat.
  fold local_messages in Hchat. fold outcome in Hchat.
  assert (Hfail : forall e, outcome = Raise e -> redis' = redis).
  { intros e He. rewrite He in Hchat. subst redis'. by rewrite Hchat. }
  assert (Hempty : outcome = Ok [] -> redis' = redis).
  { intros He. rewrite He in Hchat. simpl in Hchat. subst redis'.
    by rewrite Hchat. }
  assert (Hone : redis' = redis \/
            exists response,
              outcome = Ok response /\ response <> [] /\
              save_message self redis channel_id response ASSISTANT = Ok redis').
  { destruct outcome as [response | e] eqn:Hout; [| left; by eapply Hfail].
    destruct (Z.eqb_spec (len response) 0) as [H0 | H0].
    - left. subst redis'. by rewrite Hchat.
    - destruct (save_message self redis channel_id response ASSISTANT)
        as [redis2 | e] eqn:Hsave.
      + right. exists response. subst redis'. rewrite Hchat.
        split; [done |]. split; [| done].
        intros ->. by apply H0.
      + left. subst redis'. by rewrite Hchat. }
  split; [exact Hone |]. split; [| split; [exact Hfail | split; [exact Hempty |]]].
  - destruct Hone as [-> | (response & _ & _ & Hsave)]; [by left |].
    apply save_message_one_turn in Hsave as [-> | Hturn]; [by left | by right].
  - intros Hbackend Hstream Htype Hsingle.
    assert (Hout : (exists e, outcome = Raise e) \/ outcome = Ok []).
    { subst outcome. unfold backend_outcome.
      rewrite bool_decide_eq_true_2 by done. rewrite Hstream.
      destruct (ollama_stream backend_ local_messages) as [parts failure].
      simpl in Htype. subst failure.
      destruct Hsingle as [[e ->] | ->]; [left; by exists e | by right]. }
    destruct Hout as [[e He] | He]; [by eapply Hfail | by apply Hempty].
Qed.

(** C9: when the backend ends with an exception or with an empty text,
    [chat] returns the fallback phrase; and whatever the backend does,
    [chat] returns a text: the fallback phrase or the text of the
    backend. *)
Theorem chat_fallback_phrase (redis : Redis) channel_id :
  let local_messages := trim self (load_channel redis channel_id) in
  let outcome := backend_outcome self backend_ local_messages in
  let reply := (chat self backend_ redis channel_id).1 in
  ((exists e, outcome = Raise e) \/ outcome = Ok [] -> reply = UNABLE) /\
  (reply = UNABLE \/ outcome = Ok reply).
Proof.
  intros local_messages outcome reply.
  pose proof (chat_cases redis channel_id) as Hchat. cbv zeta in Hchat.
  fold local_messages in Hchat. fold outcome in Hchat.
  split.
  - intros [[e He] | He]; rewrite He in Hchat; simpl in Hchat;
      subst reply; by rewrite Hchat.
  - destruct outcome as [response | e] eqn:Hout;
      [| left; subst reply; by rewrite Hchat].
    destruct (len response =? 0); [left; subst reply; by rewrite Hchat |].
    destruct (save_message self redis channel_id response ASSISTANT);
      subst reply; rewrite Hchat; [by right | by left].
Qed.

End Chat.

(** ** The orchestrator on examples *)

Example chat_streaming_refused :
  chat streaming hello_backend ∅ (str "7") =
    (str "hello", {[ key (str "7") := [mkTurn ASSISTANT (str "hello")] ]}).
Proof. reflexivity. Qed.

Example chat_down :
  chat default_bot down_backend ∅ (str "7") = (UNABLE, ∅) /\
  chat streaming down_backend ∅ (str "7") = (UNABLE, ∅) /\
  chat streaming refusing_backend ∅ (str "7") = (UNABLE, ∅) /\
  chat openai_bot down_backend ∅ (str "7") = (UNABLE, ∅).
Proof. repeat split; reflexivity. Qed.

Lemma chat_appends_at_most_once_witness :
  backend streaming = str "ollama" /\ stream streaming = true /\
  (ollama_stream refusing_backend (trim streaming (load_channel ∅ (str "7")))).2
    = Some TypeError /\
  (chat streaming refusing_backend ∅ (str "7")).2 = ∅.
Proof.
  split; [reflexivity |]. split; [reflexivity |]. split; [reflexivity |].
  apply (chat_appends_at_most_once streaming refusing_backend ∅ (str "7"));
    [reflexivity | reflexivity | reflexivity |].
  left. by exists OtherError.
Defined.

Lemma chat_fallback_phrase_witness :
  (exists e, backend_outcome default_bot down_backend
               (trim default_bot (load_channel ∅ (str "7"))) = Raise e) /\
  (chat default_bot down_backend ∅ (str "7")).1 = UNABLE.
Proof.
  assert (H : exists e, backend_outcome default_bot down_backend
                (trim default_bot (load_channel ∅ (str "7"))) = Raise e)
    by (by exists OtherError).
  split; [exact H |].
  apply (chat_fallback_phrase default_bot down_backend ∅ (str "7")).
  left. exact H.
Defined.

(** ** The reset command *)

Section Reset.
Import Py.
Variable self : Bot.

Lemma lstrip_snoc (s : text) (c : char) :
  isspace c = false -> lstrip (s ++ [c]) <> [].
Proof.
  intros Hc. induction s as [|x s IH]; simpl.
  - by rewrite Hc.
  - by destruct (isspace x).
Qed.

(** A text that starts with a character other than white space is not
    blank. *)
Lemma strip_nonblank (c : char) (s : text) :
  isspace c = false -> strip (c :: s) <> [].
Proof.
  intros Hc. unfold strip, rstrip. cbn [lstrip]. rewrite Hc.
  cbn [rev]. intros H. apply (f_equal (@rev N)) in H.
  rewrite rev_involutive in H. simpl in H.
  by apply (lstrip_snoc (rev s) c Hc).
Qed.

Lemma greeting_nonblank guild_name : strip (greeting guild_name) <> [].
Proof. by apply strip_nonblank. Qed.

Lemma load_channel_flush (redis : Redis) channel_id :
  load_channel (flush_channel redis channel_id) channel_id = [].
Proof. unfold load_channel, flush_channel. by rewrite lookup_delete_eq. Qed.

(** C6: with an admin id configured and a requester whose id differs from
    it, [reset_command] answers that the requester is not authorized and
    leaves the store as it was, every channel of it. *)
Theorem reset_denied (redis : Redis) (interaction : Interaction) :
  admin_id self <> [] ->
  str_int (user_id interaction) <> admin_id self ->
  reset_command self redis interaction = (NOT_AUTHORIZED, redis).
Proof.
  intros Hadmin Hother. unfold reset_command.
  destruct (Z.eqb_spec (len (admin_id self)) 0) as [H0 | _].
  - by apply len_nil_iff in H0.
  - by rewrite bool_decide_eq_false_2.
Qed.

(** C7 (amended): a reset request by the admin, or with no admin id
    configured, that carries a channel id, under a maximum turn count and a
    per-turn cap of at least one, is answered with [Chat reset.] and leaves
    in the channel exactly one turn, of role [assistant]: the seed greeting
    when it has at most [msg_max_chars] characters, and its last
    [msg_max_chars] characters otherwise. *)
Theorem reset_reseeds (redis : Redis) (interaction : Interaction) (id : Z) :
  admin_id self = [] \/ str_int (user_id interaction) = admin_id self ->
  interaction_channel_id interaction = Some id ->
  id <> 0 ->
  0 < chat_max_length self ->
  0 < msg_max_chars self ->
  let seed :=
    greeting (default (str "this chat") (interaction_guild_name interaction)) in
  exists redis' : Redis,
    reset_command self redis interaction = (CHAT_RESET, redis') /\
    load_channel redis' (str_int id) =
      [mkTurn ASSISTANT
         (if msg_max_chars self <? len seed
          then lastn (Z.to_nat (msg_max_chars self)) seed
          else seed)].
Proof.
  intros Hadmin Hchannel Hid Hmax Hcap seed. unfold reset_command.
  assert (Hgate : negb (len (admin_id self) =? 0)
                  && negb (bool_decide (str_int (user_id interaction) = admin_id self))
                  = false).
  { destruct Hadmin as [-> | Heq]; [done |].
    rewrite (bool_decide_eq_true_2 _ Heq). apply andb_false_r. }
  rewrite Hgate, Hchannel.
  destruct (Z.eqb_spec id 0) as [| _]; [done |].
  fold seed. rewrite save_message_ok by (done || apply greeting_nonblank).
  eexists. split; [done |].
  rewrite load_channel_insert, load_channel_flush.
  rewrite lastn_all by (simpl; lia). simpl app.
  unfold turn_of, truncate. cbn [fst snd].
  destruct (Z.ltb_spec (msg_max_chars self) (len seed)) as [Hlong | _];
    [| done].
  by rewrite len_slice_from_neg by lia.
Qed.

End Reset.

Lemma reset_denied_witness :
  admin_id default_bot <> [] /\
  Py.str_int (user_id stranger_request) <> admin_id default_bot /\
  reset_command default_bot old_history stranger_request =
    (NOT_AUTHORIZED, old_history).
Proof.
  assert (H1 : admin_id default_bot <> []) by done.
  assert (H2 : Py.str_int (user_id stranger_request) <> admin_id default_bot)
    by (by vm_compute).
  split; [exact H1 |]. split; [exact H2 |].
  exact (reset_denied default_bot old_history stranger_request H1 H2).
Defined.

Lemma reset_reseeds_witness :
  exists redis' : Redis,
    reset_command default_bot old_history admin_request = (CHAT_RESET, redis') /\
    load_channel redis' (Py.str_int 7) =
      [mkTurn ASSISTANT
         (if msg_max_chars default_bot <? Py.len (greeting (str "this chat"))
          then lastn (Z.to_nat (msg_max_chars default_bot))
                 (greeting (str "this chat"))
          else greeting (str "this chat"))].
Proof.
  apply (reset_reseeds default_bot old_history admin_request 7).
  - right. reflexivity.
  - reflexivity.
  - discriminate.
  - reflexivity.
  - reflexivity.
Defined.

(** C7, as first stated, fails in three ways.  A request of the admin
    without channel id is answered with [Unable to determine channel to
    reset.] and resets nothing.  Under [--msg-max-chars 3] the one turn left
    holds the last three characters of the greeting.  Under
    [--chat-max-length 0] the channel is flushed, the greeting is not
    stored, and the answer is the error message. *)
Lemma reset_reseeds_counterexample :
  Py.str_int (user_id lost_request) = admin_id default_bot /\
  reset_command default_bot old_history lost_request = (NO_CHANNEL, old_history) /\
  reset_command terse old_history admin_request =
    (CHAT_RESET, {[ key (str "7") := [mkTurn ASSISTANT (str "t.*")] ]}) /\
  str "t.*" <> greeting (str "this chat") /\
  reset_command no_memory old_history admin_request = (RESET_ERROR, ∅).
Proof.
  split; [reflexivity |]. split; [reflexivity |].
  split; [| split; [by vm_compute |]].
  - vm_compute. reflexivity.
  - vm_compute. reflexivity.
Qed.

(** ** The message handler *)

Section Handler.
Import Py.
Variable escape_mentions : text -> text.
Variable title : text -> text.
Variable discord_user_id : Z.
Variable self : Bot.
Variable backend_ : Backend.

Lemma message_line_nonblank message content_ :
  strip (message_line message content_) <> [].
Proof. by apply strip_nonblank. Qed.

(** The reply of [chat] is the fallback phrase or the text the backend
    gives for the trimmed history of the channel. *)
Lemma chat_reply_cases (redis : Redis) channel_id_ :
  (chat self backend_ redis channel_id_).1 = UNABLE \/
  backend_outcome self backend_ (trim self (load_channel redis channel_id_))
    = Ok (chat self backend_ redis channel_id_).1.
Proof.
  pose proof (chat_cases self backend_ redis channel_id_) as Hchat.
  cbv zeta in Hchat.
  destruct (backend_outcome self backend_ _) as [response | e];
    [| left; by rewrite Hchat].
  destruct (len response =? 0); [left; by rewrite Hchat |].
  destruct (save_message self redis channel_id_ response ASSISTANT);
    rewrite Hchat; [by right | by left].
Qed.

(** Under a maximum turn count of at least one, [chat] leaves the channel
    as it was or puts one assistant turn behind it. *)
Lemma chat_history_cases (redis : Redis) channel_id_ :
  0 < chat_max_length self ->
  load_channel (chat self backend_ redis channel_id_).2 channel_id_
    = load_channel redis channel_id_ \/
  exists t,
    role t = ASSISTANT /\
    load_channel (chat self backend_ redis channel_id_).2 channel_id_
      = lastn (Z.to_nat (chat_max_length self))
          (load_channel redis channel_id_ ++ [t]).
Proof.
  intros Hmax.
  pose proof (chat_cases self backend_ redis channel_id_) as Hchat.
  cbv zeta in Hchat.
  destruct (backend_outcome self backend_ _) as [response | e];
    [| left; by rewrite Hchat].
  destruct (len response =? 0); [left; by rewrite Hchat |].
  destruct (decide (strip response = [])) as [Hblank | Hblank].
  - unfold save_message in Hchat.
    rewrite bool_decide_eq_true_2 in Hchat by done.
    left. by rewrite Hchat.
  - rewrite save_message_ok in Hchat by done. rewrite Hchat. right.
    exists (turn_of self (response, ASSISTANT)). split; [done |].
    cbn [snd]. by rewrite load_channel_insert.
Qed.

(** [on_message] on a message that gets to the reset check with the
    processed content [RESET], from an author other than the admin, under
    a maximum turn count of at least one. *)
Lemma on_message_denied (sampled : bool) (redis redis1 : Redis)
    (message : Message) :
  accepted self message ->
  (if not_for_us message
   then save_message self redis (str_int (channel_id message))
          (message_line message (message_text message)) USER
   else Ok redis) = Ok redis1 ->
  (not_for_us message = true -> sampled = true) ->
  processed title discord_user_id self message = RESET ->
  str_int (author_id message) <> admin_id self ->
  0 < chat_max_length self ->
  let string_channel_id := str_int (channel_id message) in
  let line :=
    mkTurn USER
      (truncate self
         (message_line message
            (author_name message
               ++ str " tried to reset the chat, but was denied."))) in
  let asked : Redis :=
    <[key string_channel_id :=
        lastn (Z.to_nat (chat_max_length self))
          (load_channel redis1 string_channel_id ++ [line])]> redis1 in
  on_message escape_mentions title discord_user_id self backend_ sampled
    redis message =
    Ok ((chat self backend_ asked string_channel_id).2,
        write escape_mentions (chat self backend_ asked string_channel_id).1).
Proof.
  intros (Hready & Hchannel & Hallowed & Hself & Hdm) Hsaved Hsampled Hreset
    Hauthor Hmax string_channel_id line asked.
  unfold on_message. rewrite Hready, Hchannel, Hself, Hdm. cbn [negb].
  fold string_channel_id.
  assert (Hgate : negb (len (chat_channel_id self) =? 0)
                  && negb (bool_decide (string_channel_id = chat_channel_id self))
                  = false).
  { destruct Hallowed as [-> | Heq]; [done |].
    rewrite (bool_decide_eq_true_2 _ Heq). apply andb_false_r. }
  rewrite Hgate. fold string_channel_id in Hsaved. rewrite Hsaved.
  assert (Hgo : not_for_us message && negb sampled = false).
  { destruct (not_for_us message); [| done]. by rewrite Hsampled. }
  rewrite Hgo, Hreset. change (len RESET =? 0) with false. cbv iota.
  rewrite (bool_decide_eq_true_2 (RESET = RESET)) by done.
  rewrite (bool_decide_eq_false_2 _ Hauthor). cbn [andb negb].
  unfold respond. fold string_channel_id.
  rewrite save_message_ok by (done || apply message_line_nonblank).
  change (turn_of self (message_line message (denied message), USER)) with line.
  fold asked.
  by destruct (chat self backend_ asked string_channel_id).
Qed.

(** C10 (amended): a guild message that passes the first checks of the
    handler and is addressed to the bot or picked by the sampling, with the
    processed content [RESET] and an author other than the admin, under a
    maximum turn count of at least one.  The channel is not flushed: the
    line of the message with the content [<author name> tried to reset the
    chat, but was denied.] is put behind its history as a user turn,
    through the cut of [save_message].  The backend is asked with that
    history, trimmed, and what is written is the reply of [chat]: the text
    of the backend or the fallback phrase.  Afterwards the channel holds
    that history, or that history with one assistant turn behind it. *)
Theorem reset_denied_continues (sampled : bool) (redis redis1 : Redis)
    (message : Message) :
  ready self = true ->
  has_channel message = true ->
  chat_channel_id self = [] \/
    str_int (channel_id message) = chat_channel_id self ->
  from_self message = false ->
  is_dm message = false ->
  (if not_for_us message
   then save_message self redis (str_int (channel_id message))
          (message_line message (message_text message)) USER
   else Ok redis) = Ok redis1 ->
  (not_for_us message = true -> sampled = true) ->
  processed title discord_user_id self message = RESET ->
  str_int (author_id message) <> admin_id self ->
  0 < chat_max_length self ->
  let string_channel_id := str_int (channel_id message) in
  let line :=
    mkTurn USER
      (truncate self
         (message_line message
            (author_name message
               ++ str " tried to reset the chat, but was denied."))) in
  let history :=
    lastn (Z.to_nat (chat_max_length self))
      (load_channel redis1 string_channel_id ++ [line]) in
  let asked : Redis := <[key string_channel_id := history]> redis1 in
  let reply := (chat self backend_ asked string_channel_id).1 in
  let redis' := (chat self backend_ asked string_channel_id).2 in
  on_message escape_mentions title discord_user_id self backend_ sampled
    redis message = Ok (redis', write escape_mentions reply)
  /\
  last history = Some line
  /\
  (reply = UNABLE \/
   backend_outcome self backend_ (trim self history) = Ok reply)
  /\
  (load_channel redis' string_channel_id = history \/
   exists t,
     role t = ASSISTANT /\
     load_channel redis' string_channel_id
       = lastn (Z.to_nat (chat_max_length self)) (history ++ [t])).
Proof.
  intros Hready Hchannel Hallowed Hself Hdm Hsaved Hsampled Hreset Hauthor
    Hmax string_channel_id line history asked reply redis'.
  split; [| split; [| split]].
  - by apply on_message_denied.
  - subst history.
    replace (Z.to_nat (chat_max_length self))
      with (S (Z.to_nat (chat_max_length self - 1))) by lia.
    rewrite <- lastn_snoc. apply last_snoc.
  - pose proof (chat_reply_cases asked string_channel_id) as Hreply.
    subst asked. by rewrite load_channel_insert in Hreply.
  - pose proof (chat_history_cases asked string_channel_id Hmax) as Hhist.
    subst asked. by rewrite load_channel_insert in Hhist.
Qed.

End Handler.

Example on_message_reset_by_stranger :
  on_message Discord.escape_mentions title_ascii 99 default_bot hello_backend
    false old_history reset_by_stranger =
    Ok ({[ key (str "7") :=
             [mkTurn USER (str "old");
              mkTurn USER
                (str "**(1001) at 2024-01-01 12:00:00 mallory(7) replied to 1000 in general**: mallory tried to reset the chat, but was denied.");
              mkTurn ASSISTANT (str "hello")] ]},
        [mkSend (str "hello") true]).
Proof. vm_compute. reflexivity. Qed.

Lemma reset_denied_continues_witness :
  0 < chat_max_length default_bot /\
  processed title_ascii 99 default_bot reset_by_stranger = RESET /\
  Py.str_int (author_id reset_by_stranger) <> admin_id default_bot /\
  on_message Discord.escape_mentions title_ascii 99 default_bot hello_backend
    false old_history reset_by_stranger =
    Ok ({[ key (str "7") :=
             [mkTurn USER (str "old");
              mkTurn USER
                (str "**(1001) at 2024-01-01 12:00:00 mallory(7) replied to 1000 in general**: mallory tried to reset the chat, but was denied.");
              mkTurn ASSISTANT (str "hello")] ]},
        [mkSend (str "hello") true]).
Proof.
  assert (H1 : 0 < chat_max_length default_bot) by reflexivity.
  assert (H2 : processed title_ascii 99 default_bot reset_by_stranger = RESET)
    by (vm_compute; reflexivity).
  assert (H3 : Py.str_int (author_id reset_by_stranger) <> admin_id default_bot)
    by (by vm_compute).
  split; [exact H1 |]. split; [exact H2 |]. split; [exact H3 |].
  destruct (reset_denied_continues Discord.escape_mentions title_ascii 99
              default_bot hello_backend false old_history old_history
              reset_by_stranger
              eq_refl eq_refl (or_introl eq_refl) eq_refl eq_refl eq_refl
              (fun H => match Bool.diff_false_true H with end) H2 H3 H1)
    as [Hrun _].
  rewrite Hrun. vm_compute. reflexivity.
Defined.

(** C10, as first stated, fails in two ways.  The text [RESET] of somebody
    other than the admin that does not mention the bot, and is not picked
    by the sampling, is recorded as it is and not answered: its content is
    not replaced and no response is made.  And under [--chat-max-length 0]
    the denial is not saved and the backend is not asked: [save_message]
    raises and the apology for the error is written. *)
Lemma reset_denied_continues_counterexample :
  (processed title_ascii 99 default_bot reset_unaddressed = RESET /\
   Py.str_int (author_id reset_unaddressed) <> admin_id default_bot /\
   on_message Discord.escape_mentions title_ascii 99 default_bot hello_backend
     false old_history reset_unaddressed =
     Ok ({[ key (str "7") :=
              [mkTurn USER (str "old");
               mkTurn USER
                 (str "**(1006) at 2024-01-01 12:00:05 mallory(7) said in general**: RESET")] ]},
         [])) /\
  (processed title_ascii 99 no_memory reset_by_stranger = RESET /\
   Py.str_int (author_id reset_by_stranger) <> admin_id no_memory /\
   on_message Discord.escape_mentions title_ascii 99 no_memory hello_backend
     false old_history reset_by_stranger =
     Ok (old_history, [mkSend ERROR_SORRY true])).
Proof.
  split; (split; [vm_compute; reflexivity |]);
    (split; [by vm_compute | vm_compute; reflexivity]).
Qed.

(* ================================================================= *)
(** * Further properties of the code *)

(** ** The session store: round trip, bounds, isolation *)

Section StoreMore.
Import Py.
Variable self : Bot.

Lemma key_inj (a b : text) : key a = key b -> a = b.
Proof. unfold key. apply app_inv_head. Qed.

Lemma load_channel_insert_ne (redis : Redis) channel_id other messages :
  other <> channel_id ->
  load_channel (<[key channel_id := messages]> redis) other =
    load_channel redis other.
Proof.
  intros Hne. unfold load_channel. rewrite lookup_insert_ne; [done |].
  intros Heq. apply Hne. symmetry. by apply key_inj.
Qed.

(** A call of [save_message] that returns leaves every other channel as
    it was. *)
Lemma save_message_other (redis redis' : Redis) channel_id other message role_ :
  save_message self redis channel_id message role_ = Ok redis' ->
  other <> channel_id ->
  load_channel redis' other = load_channel redis other.
Proof.
  unfold save_message. case_match; [by intros [= <-] |].
  destruct (evict self (load_channel redis channel_id)); [| done].
  intros [= <-] Hne. by apply load_channel_insert_ne.
Qed.

Lemma len_truncate (message : text) :
  0 < msg_max_chars self -> len (truncate self message) <= msg_max_chars self.
Proof.
  intros Hcap. unfold truncate.
  destruct (Z.ltb_spec (msg_max_chars self) (len message)) as [Hlong | Hfit];
    [| done].
  rewrite len_slice_from_neg by lia. unfold len in *.
  rewrite length_lastn. lia.
Qed.

Lemma last_lastn_snoc {A} (k : Z) (l : list A) (x : A) :
  0 < k -> last (lastn (Z.to_nat k) (l ++ [x])) = Some x.
Proof.
  intros Hk. replace (Z.to_nat k) with (S (Z.to_nat (k - 1))) by lia.
  rewrite <- lastn_snoc. apply last_snoc.
Qed.

(** X1: append then load.  Under a maximum turn count of at least one,
    [save_message] on a non-blank message returns, the last turn
    [load_channel] then gives is the turn just stored, and the channel holds
    one turn more than before, up to the maximum. *)
Theorem save_message_round_trip (redis : Redis) channel_id message role_ :
  0 < chat_max_length self ->
  strip message <> [] ->
  exists redis' : Redis,
    save_message self redis channel_id message role_ = Ok redis' /\
    last (load_channel redis' channel_id)
      = Some (mkTurn role_ (truncate self message)) /\
    len (load_channel redis' channel_id)
      = Z.min (chat_max_length self) (len (load_channel redis channel_id) + 1).
Proof.
  intros Hmax Hblank. eexists. split; [by apply save_message_ok |].
  rewrite load_channel_insert. split.
  - by apply last_lastn_snoc.
  - unfold len. rewrite length_lastn, length_app. simpl. lia.
Qed.

(** X2: [save_message] raises exactly when the message is not blank and the
    maximum turn count is zero or less, and what it raises is the
    [IndexError] of [pop(0)] on the emptied list; nothing has been written
    by then. *)
Theorem save_message_raises_iff (redis : Redis) channel_id message role_ e :
  save_message self redis channel_id message role_ = Raise e <->
  strip message <> [] /\ chat_max_length self <= 0 /\ e = IndexError.
Proof.
  split.
  - intros Hraise.
    destruct (save_message_raises self redis channel_id message role_ e Hraise)
      as [-> Hmax].
    split; [| done]. intros Hblank. unfold save_message in Hraise.
    by rewrite bool_decide_eq_true_2 in Hraise.
  - intros (Hblank & Hmax & ->). unfold save_message.
    rewrite bool_decide_eq_false_2 by done. by rewrite evict_raises.
Qed.

(** X3: [save_message] keeps the per-turn cap.  Under a positive
    [msg_max_chars], when every turn of the channel has at most
    [msg_max_chars] characters, so has every turn after the call. *)
Theorem save_message_keeps_cap (redis redis' : Redis) channel_id message role_ :
  0 < msg_max_chars self ->
  Forall (fun t => len (content t) <= msg_max_chars self)
    (load_channel redis channel_id) ->
  save_message self redis channel_id message role_ = Ok redis' ->
  Forall (fun t => len (content t) <= msg_max_chars self)
    (load_channel redis' channel_id).
Proof.
  intros Hcap Hall. unfold save_message. case_match; [by intros [= <-] |].
  destruct (evict self (load_channel redis channel_id)) as [kept | ?] eqn:Hev;
    [| done].
  intros [= <-]. rewrite load_channel_insert.
  apply evict_suffix in Hev as [dropped Hev]. rewrite Hev in Hall.
  apply Forall_app in Hall as [_ Hkept].
  apply Forall_app. split; [done |].
  constructor; [| constructor]. simpl. by apply len_truncate.
Qed.

(** X4: channels are kept apart.  A call of [save_message] that returns,
    and [flush_channel], leave the history of every other channel as it
    was. *)
Theorem store_isolated (redis redis' : Redis) channel_id other message role_ :
  other <> channel_id ->
  (save_message self redis channel_id message role_ = Ok redis' ->
   load_channel redis' other = load_channel redis other) /\
  load_channel (flush_channel redis channel_id) other = load_channel redis other.
Proof.
  intros Hne. split.
  - intros Hsave. by eapply save_message_other.
  - unfold load_channel, flush_channel. rewrite lookup_delete_ne; [done |].
    intros Heq. apply Hne. symmetry. by apply key_inj.
Qed.

(** X5: [flush_channel] empties the channel, and flushing again, or
    flushing a channel that has no history, changes nothing more. *)
Theorem flush_channel_idempotent (redis : Redis) channel_id :
  load_channel (flush_channel redis channel_id) channel_id = [] /\
  flush_channel (flush_channel redis channel_id) channel_id
    = flush_channel redis channel_id /\
  (redis !! key channel_id = None -> flush_channel redis channel_id = redis).
Proof.
  split; [apply load_channel_flush |]. unfold flush_channel. split.
  - apply delete_delete_eq.
  - apply delete_id.
Qed.

End StoreMore.

(** ** The trimmer: idempotence and the smallest budgets *)

Section TrimmerMore.
Import Py.
Variable self : Bot.

Lemma len_dumps_ge_2 (messages : list Turn) : 2 <= len (Json.dumps messages).
Proof.
  unfold Json.dumps. rewrite !len_app.
  pose proof (len_nonneg (Json.join (str ", ") (map Json.dumps_turn messages))).
  change (len (str "[")) with 1. change (len (str "]")) with 1. lia.
Qed.

(** The result of the trimmer is within the budget unless it is empty. *)
Lemma trim_fits (local_messages : list Turn) :
  len (Json.dumps (trim self local_messages)) <= ctx self * 4 \/
  trim self local_messages = [].
Proof.
  unfold trim.
  destruct (Z.ltb_spec (ctx self * 4) (len (Json.dumps local_messages)));
    [| by left].
  by destruct (trim_loop_spec self local_messages) as (_ & Hfit & _).
Qed.

(** X6: trimming twice is trimming once. *)
Theorem trim_idempotent (local_messages : list Turn) :
  trim self (trim self local_messages) = trim self local_messages.
Proof.
  destruct (trim_fits local_messages) as [Hfit | Hnil].
  - unfold trim at 1.
    destruct (Z.ltb_spec (ctx self * 4)
                (len (Json.dumps (trim self local_messages)))); [lia | done].
  - rewrite Hnil. unfold trim. by case_match.
Qed.

(** X7: a context length of zero or less leaves no history for the
    backend: the serialized empty list has two characters already, so
    every turn is dropped. *)
Theorem trim_no_budget (local_messages : list Turn) :
  ctx self <= 0 -> trim self local_messages = [].
Proof.
  intros Hctx.
  assert (Hloop : forall messages excess,
             0 < excess ->
             trim_loop self excess messages = []).
  { induction messages as [|t rest IH]; intros excess Hexcess; [done |].
    cbn [trim_loop]. destruct (Z.ltb_spec 0 excess); [| lia].
    apply IH. pose proof (len_dumps_ge_2 rest). lia. }
  unfold trim. pose proof (len_dumps_ge_2 local_messages).
  destruct (Z.ltb_spec (ctx self * 4) (len (Json.dumps local_messages))); [| lia].
  apply Hloop. lia.
Qed.

End TrimmerMore.

(** ** The orchestrator: what is returned and what is stored *)

Section ChatMore.
Import Py.
Variable self : Bot.
Variable backend_ : Backend.

Lemma accumulate_from (parts : list text) : forall response_message : text,
  fold_left (fun response_message chunk =>
               if len chunk =? 0 then response_message
               else response_message ++ chunk) parts response_message
  = response_message ++ concat parts.
Proof.
  induction parts as [|chunk parts IH]; intros response_message; simpl.
  - by rewrite app_nil_r.
  - rewrite IH. destruct (Z.eqb_spec (len chunk) 0) as [H0 | _].
    + apply len_nil_iff in H0. by subst chunk.
    + by rewrite app_assoc.
Qed.

Lemma accumulate_concat (parts : list text) : accumulate parts = concat parts.
Proof. unfold accumulate. by rewrite accumulate_from. Qed.

Lemma UNABLE_nonempty : UNABLE <> [].
Proof. done. Qed.

Lemma len_nonzero_nonempty {A} (s : list A) : (len s =? 0) = false -> s <> [].
Proof. intros H ->. done. Qed.

(** X8: [chat] never returns the empty text: it returns the fallback
    phrase or a non-empty text of the backend. *)
Theorem chat_reply_nonempty (redis : Redis) channel_id :
  (chat self backend_ redis channel_id).1 <> [].
Proof.
  pose proof (chat_cases self backend_ redis channel_id) as Hchat.
  cbv zeta in Hchat.
  destruct (backend_outcome self backend_ _) as [response | e];
    [| rewrite Hchat; apply UNABLE_nonempty].
  destruct (len response =? 0) eqn:Hlen;
    [rewrite Hchat; apply UNABLE_nonempty |].
  destruct (save_message self redis channel_id response ASSISTANT);
    rewrite Hchat; [by apply len_nonzero_nonempty | apply UNABLE_nonempty].
Qed.

(** X9: [chat] for one channel leaves the history of every other channel
    as it was. *)
Theorem chat_isolated (redis : Redis) channel_id other :
  other <> channel_id ->
  load_channel (chat self backend_ redis channel_id).2 other
    = load_channel redis other.
Proof.
  intros Hne.
  pose proof (chat_cases self backend_ redis channel_id) as Hchat.
  cbv zeta in Hchat.
  destruct (backend_outcome self backend_ _) as [response | e];
    [| by rewrite Hchat].
  destruct (len response =? 0); [by rewrite Hchat |].
  destruct (save_message self redis channel_id response ASSISTANT)
    as [redis' | e] eqn:Hsave; rewrite Hchat; [| done].
  by eapply save_message_other.
Qed.

(** X10: the reply is what is stored.  When the backend gives a non-blank
    text, under a maximum turn count of at least one, [chat] returns that
    text and the last turn of the channel is the text, cut to the per-turn
    cap, with the role [assistant]. *)
Theorem chat_stores_reply (redis : Redis) channel_id response :
  backend_outcome self backend_ (trim self (load_channel redis channel_id))
    = Ok response ->
  strip response <> [] ->
  0 < chat_max_length self ->
  (chat self backend_ redis channel_id).1 = response /\
  last (load_channel (chat self backend_ redis channel_id).2 channel_id)
    = Some (mkTurn ASSISTANT (truncate self response)).
Proof.
  intros Hout Hblank Hmax.
  pose proof (chat_cases self backend_ redis channel_id) as Hchat.
  cbv zeta in Hchat. rewrite Hout in Hchat.
  destruct (Z.eqb_spec (len response) 0) as [H0 | _].
  { apply len_nil_iff in H0. by subst response. }
  rewrite save_message_ok in Hchat by done. rewrite Hchat. split; [done |].
  cbn [snd]. rewrite load_channel_insert. by apply last_lastn_snoc.
Qed.

(** X11: a text of white space only is not empty, so [chat] returns it,
    but [save_message] skips it: the store stays as it was. *)
Theorem chat_blank_reply (redis : Redis) channel_id response :
  backend_outcome self backend_ (trim self (load_channel redis channel_id))
    = Ok response ->
  response <> [] ->
  strip response = [] ->
  chat self backend_ redis channel_id = (response, redis).
Proof.
  intros Hout Hne Hblank.
  pose proof (chat_cases self backend_ redis channel_id) as Hchat.
  cbv zeta in Hchat. rewrite Hout in Hchat.
  destruct (Z.eqb_spec (len response) 0) as [H0 | _].
  { by apply len_nil_iff in H0. }
  unfold save_message in Hchat.
  by rewrite bool_decide_eq_true_2 in Hchat.
Qed.

(** X12: under a maximum turn count of zero or less [chat] cannot store
    and cannot answer: it returns the fallback phrase, or a text of white
    space only, and the store stays as it was. *)
Theorem chat_without_memory (redis : Redis) channel_id :
  chat_max_length self <= 0 ->
  (chat self backend_ redis channel_id).2 = redis /\
  ((chat self backend_ redis channel_id).1 = UNABLE \/
   strip (chat self backend_ redis channel_id).1 = []).
Proof.
  intros Hmax.
  pose proof (chat_cases self backend_ redis channel_id) as Hchat.
  cbv zeta in Hchat.
  destruct (backend_outcome self backend_ _) as [response | e];
    [| rewrite Hchat; split; [done | by left]].
  destruct (len response =? 0); [rewrite Hchat; split; [done | by left] |].
  destruct (decide (strip response = [])) as [Hblank | Hblank].
  - unfold save_message in Hchat.
    rewrite bool_decide_eq_true_2 in Hchat by done.
    rewrite Hchat. split; [done | by right].
  - unfold save_message in Hchat.
    rewrite bool_decide_eq_false_2, evict_raises in Hchat by done.
    rewrite Hchat. split; [done | by left].
Qed.

(** X13: for the ollama backend with streaming on, under a maximum turn
    count of at least one, a streaming call that ends normally with parts
    that are not blank when put together is answered with the parts put
    together in the order they came, empty parts adding nothing; that text,
    through the cut of [save_message], is the last turn of the channel, an
    assistant turn. *)
Theorem chat_stream_concat (redis : Redis) channel_id parts :
  backend self = str "ollama" ->
  stream self = true ->
  ollama_stream backend_ (trim self (load_channel redis channel_id))
    = (parts, None) ->
  strip (concat parts) <> [] ->
  0 < chat_max_length self ->
  (chat self backend_ redis channel_id).1 = concat parts /\
  last (load_channel (chat self backend_ redis channel_id).2 channel_id)
    = Some (mkTurn ASSISTANT (truncate self (concat parts))).
Proof.
  intros Hbackend Hstream Hparts Hblank Hmax.
  pose proof (chat_cases self backend_ redis channel_id) as Hchat.
  cbv zeta in Hchat. unfold backend_outcome in Hchat.
  rewrite bool_decide_eq_true_2, Hstream, Hparts, accumulate_concat in Hchat
    by done.
  destruct (Z.eqb_spec (len (concat parts)) 0) as [H0 | _].
  { apply len_nil_iff in H0. rewrite H0 in Hblank. done. }
  rewrite save_message_ok in Hchat by done. rewrite Hchat. split; [done |].
  cbn [snd]. rewrite load_channel_insert. by apply last_lastn_snoc.
Qed.

Lemma evict_ext (other : Bot) (messages : list Turn) :
  chat_max_length other = chat_max_length self ->
  evict other messages = evict self messages.
Proof.
  intros Hmax. induction messages as [|t messages IH]; simpl;
    rewrite Hmax; [done |]. by rewrite IH.
Qed.

Lemma save_message_ext (other : Bot) (redis : Redis) channel_id message role_ :
  chat_max_length other = chat_max_length self ->
  msg_max_chars other = msg_max_chars self ->
  save_message other redis channel_id message role_
    = save_message self redis channel_id message role_.
Proof.
  intros Hmax Hcap. unfold save_message, truncate.
  by rewrite Hcap, evict_ext.
Qed.

Lemma trim_loop_ext (other : Bot) (messages : list Turn) : forall excess,
  ctx other = ctx self ->
  trim_loop other excess messages = trim_loop self excess messages.
Proof.
  induction messages as [|t messages IH]; intros excess Hctx; simpl; [done |].
  by rewrite Hctx, IH.
Qed.

Lemma trim_ext (other : Bot) (messages : list Turn) :
  ctx other = ctx self -> trim other messages = trim self messages.
Proof. intros Hctx. unfold trim. by rewrite Hctx, trim_loop_ext. Qed.

(** X14: the fallback is the single-shot path.  When the streaming call
    ends with [TypeError], [chat] returns and stores what the same bot
    started without [--stream] does. *)
Theorem chat_stream_refused (redis : Redis) channel_id :
  (ollama_stream backend_ (trim self (load_channel redis channel_id))).2
    = Some TypeError ->
  chat self backend_ redis channel_id
    = chat (without_stream self) backend_ redis channel_id.
Proof.
  intros Hrefused. unfold chat.
  rewrite (trim_ext (without_stream self)) by done.
  change (backend (without_stream self)) with (backend self).
  unfold ollama_branch, single_shot, save_response.
  change (stream (without_stream self)) with false. cbv iota.
  destruct (ollama_stream backend_ _) as [parts failure].
  simpl in Hrefused. subst failure.
  destruct (bool_decide (backend self = str "ollama")).
  - destruct (stream self);
      destruct (ollama_chat backend_ _) as [response | e]; try done;
      destruct (len response =? 0); try done;
      by rewrite (save_message_ext (without_stream self)).
  - destruct (openai_create backend_ _) as [data | e]; [| done].
    destruct (len (completion_text data) =? 0); [done |].
    by rewrite (save_message_ext (without_stream self)).
Qed.

End ChatMore.

(** ** The chunker: what goes out *)

Section ChunkerMore.
Import Py.
Variable escape_mentions : text -> text.

Lemma outgoing_nonempty (s : text) : 0 < len (outgoing escape_mentions s).
Proof.
  unfold outgoing.
  destruct (Z.eqb_spec (len (sanitize escape_mentions s)) 0) as [_ | Hne];
    [done |].
  pose proof (len_nonneg (sanitize escape_mentions s)). lia.
Qed.

(** X15: [write] never sends an empty message; a text that is empty after
    sanitizing goes out as the placeholder. *)
Theorem write_never_empty (s : text) :
  Forall (fun m => payload m <> []) (write escape_mentions s) /\
  (sanitize escape_mentions s = [] ->
   write escape_mentions s = [mkSend NOTHING_TO_SAY true]).
Proof.
  split.
  - unfold write, write_value. case_match.
    + eapply Forall_impl; [apply write_loop_length |].
      intros m [Hpos _] Hnil. rewrite Hnil in Hpos. done.
    + repeat constructor. simpl. intros Hnil.
      pose proof (outgoing_nonempty s) as Hpos. rewrite Hnil in Hpos. done.
  - intros Hnil. unfold write, outgoing. rewrite Hnil. done.
Qed.

(** Once a message has been sent with the reference, no later message of
    the loop carries it. *)
Lemma write_loop_referenced fuel : forall i rem,
  Forall (fun m => reference m = false) (write_loop fuel i true rem).
Proof.
  induction fuel as [|fuel IH]; intros i rem; [constructor |].
  destruct (Z.lt_ge_cases i 10) as [Hi | Hi].
  - destruct (write_loop_cases fuel i true rem Hi)
      as [[-> _] | [(-> & _) | (chunk & sep & rest & _ & _ & _ & _ & _ & ->)]].
    + constructor.
    + by repeat constructor.
    + constructor; [done |]. destruct (len rest =? 0); [constructor | apply IH].
  - cbn [write_loop]. destruct (Z.ltb_spec 10 (i + 1)); [constructor | lia].
Qed.

(** X16: the first message [write] sends refers to the message it answers,
    and no later one does. *)
Theorem write_reference_first (s : text) :
  match write escape_mentions s with
  | [] => True
  | first :: rest =>
      reference first = true /\ Forall (fun m => reference m = false) rest
  end.
Proof.
  unfold write, write_value.
  destruct (2000 <=? len (outgoing escape_mentions s)); [| by split].
  destruct (write_loop_cases 10 0 false (outgoing escape_mentions s) ltac:(lia))
    as [[-> _] | [(-> & _) | (chunk & sep & rest & _ & _ & _ & _ & _ & ->)]].
  - done.
  - by split.
  - split; [done |]. destruct (len rest =? 0);
      [constructor | apply write_loop_referenced].
Qed.

Lemma rfind_absent (s : text) (c : char) (stop : Z) :
  0 <= stop -> c ∉ s -> rfind s c stop = -1.
Proof.
  intros Hstop Hc.
  destruct (rfind_spec s c stop Hstop) as [[-> _] | (_ & _ & Hat & _)]; [done |].
  exfalso. apply Hc. by eapply list_elem_of_lookup_2.
Qed.

(** A remaining text without newline goes out in pieces of 2000
    characters, as far as the counter lets the loop go. *)
Lemma write_loop_no_newline fuel : forall i referenced rem,
  newline ∉ rem ->
  i <= 10 ->
  10 - i < Z.of_nat fuel ->
  concat (map payload (write_loop fuel i referenced rem))
    = take (Z.to_nat (2000 * (10 - i))) rem.
Proof.
  induction fuel as [|fuel IH]; intros i referenced rem Hnl Hi Hfuel; [lia |].
  destruct (Z.eq_dec i 10) as [-> | Hne].
  { cbn [write_loop]. change (10 <? 10 + 1) with true.
    by rewrite take_0. }
  pose proof (rfind_absent rem newline 2000 ltac:(lia) Hnl) as Hr.
  destruct (write_loop_cases fuel i referenced rem ltac:(lia))
    as [[-> [-> | [Hr0 _]]] | [(_ & Hr0 & _)
        | (chunk & sep & rest & Hrem & Hsep & _ & _ & Hchunk & ->)]];
    try (rewrite Hr in Hr0; done).
  - by rewrite take_nil.
  - specialize (Hchunk Hr). subst chunk.
    destruct Hsep as [-> | ->].
    2:{ exfalso. apply Hnl. rewrite Hrem. set_solver. }
    rewrite app_nil_l in Hrem.
    rewrite <- (slice_to_from rem 2000) in Hrem at 1.
    apply app_inv_head in Hrem. subst rest.
    rewrite slice_to_nonneg, slice_from_nonneg by lia.
    cbn [map concat payload].
    replace (Z.to_nat (2000 * (10 - i)))
      with (Z.to_nat 2000 + Z.to_nat (2000 * (10 - (i + 1))))%nat by lia.
    rewrite <- take_take_drop. f_equal.
    destruct (Z.eqb_spec (len (drop (Z.to_nat 2000) rem)) 0) as [H0 | _].
    + apply len_nil_iff in H0. rewrite H0. by rewrite take_nil.
    + apply IH; [| lia | lia].
      intros Hin. apply Hnl. by eapply subseteq_drop.
Qed.

(** X17: when the sanitized text holds no newline, what [write] sends is,
    put together, the first 20000 characters of the text to deliver, in
    order and unchanged: of the sanitized text, or of the placeholder when
    the sanitized text is empty.  The messages are cut at every 2000
    characters, and what lies beyond 20000 is not sent. *)
Theorem write_no_newline (s : text) :
  let sanitized := sanitize escape_mentions s in
  newline ∉ sanitized ->
  concat (map payload (write escape_mentions s))
    = take (Z.to_nat 20000)
        (if len sanitized =? 0 then NOTHING_TO_SAY else sanitized).
Proof.
  intros sanitized Hnl.
  assert (Hout : newline ∉ outgoing escape_mentions s).
  { unfold outgoing. fold sanitized. destruct (len sanitized =? 0); [| done].
    apply (bool_decide_unpack _). vm_compute. exact I. }
  change (if len sanitized =? 0 then NOTHING_TO_SAY else sanitized)
    with (outgoing escape_mentions s).
  unfold write, write_value.
  destruct (Z.leb_spec 2000 (len (outgoing escape_mentions s))) as [Hlong | Hshort].
  - by rewrite (write_loop_no_newline 11 0 false _ Hout) by lia.
  - simpl. rewrite app_nil_r. symmetry. apply take_ge.
    unfold len in Hshort. lia.
Qed.

End ChunkerMore.

(** ** The reset command: when it resets, and what it leaves alone *)

Section ResetMore.
Import Py.
Variable self : Bot.

Lemma reset_gate (interaction : Interaction) :
  negb (len (admin_id self) =? 0)
  && negb (bool_decide (str_int (user_id interaction) = admin_id self)) = false
  <-> may_reset self interaction.
Proof.
  unfold may_reset. split.
  - intros Hgate. apply andb_false_iff in Hgate as [Hgate | Hgate].
    + left. apply negb_false_iff, Z.eqb_eq in Hgate. by apply len_nil_iff.
    + right. by apply negb_false_iff, bool_decide_eq_true in Hgate.
  - intros [-> | Heq]; [done |].
    rewrite (bool_decide_eq_true_2 _ Heq). apply andb_false_r.
Qed.

(** What [reset_command] does for a request that passes the check. *)
Lemma reset_command_run (redis : Redis) (interaction : Interaction) :
  may_reset self interaction ->
  reset_command self redis interaction =
    match interaction_channel_id interaction with
    | None => (NO_CHANNEL, redis)
    | Some id =>
        if id =? 0 then (NO_CHANNEL, redis)
        else
          let seed :=
            greeting (default (str "this chat")
                        (interaction_guild_name interaction)) in
          if chat_max_length self <=? 0
          then (RESET_ERROR, flush_channel redis (str_int id))
          else (CHAT_RESET,
                <[key (str_int id) := [mkTurn ASSISTANT (truncate self seed)]]>
                  (flush_channel redis (str_int id)))
    end.
Proof.
  intros Hmay. unfold reset_command.
  rewrite (proj2 (reset_gate interaction) Hmay).
  destruct (interaction_channel_id interaction) as [id|]; [| done].
  destruct (id =? 0); [done |].
  unfold save_message.
  rewrite bool_decide_eq_false_2 by apply greeting_nonblank.
  rewrite load_channel_flush. cbn [evict]. cbv zeta.
  by destruct (chat_max_length self <=? 0).
Qed.

Lemma reset_command_refused (redis : Redis) (interaction : Interaction) :
  ~ may_reset self interaction ->
  reset_command self redis interaction = (NOT_AUTHORIZED, redis).
Proof.
  intros Hmay. unfold reset_command.
  destruct (negb (len (admin_id self) =? 0) && _) eqn:Hgate; [done |].
  exfalso. by apply Hmay, reset_gate.
Qed.

Lemma may_reset_dec (interaction : Interaction) :
  may_reset self interaction \/ ~ may_reset self interaction.
Proof.
  destruct (negb (len (admin_id self) =? 0)
            && negb (bool_decide (str_int (user_id interaction) = admin_id self)))
    eqn:Hgate.
  - right. intros Hmay. apply reset_gate in Hmay. congruence.
  - left. by apply reset_gate.
Qed.

(** X18: [reset_command] answers [Chat reset.] exactly when the requester
    passes the check, the interaction carries a channel id, and the maximum
    turn count is at least one. *)
Theorem reset_success_iff (redis : Redis) (interaction : Interaction) :
  (reset_command self redis interaction).1 = CHAT_RESET <->
  may_reset self interaction /\
  (exists id, interaction_channel_id interaction = Some id /\ id <> 0) /\
  0 < chat_max_length self.
Proof.
  split.
  - intros Hans.
    destruct (may_reset_dec interaction) as [Hmay | Hmay];
      [| by rewrite reset_command_refused in Hans].
    rewrite reset_command_run in Hans by done.
    destruct (interaction_channel_id interaction) as [id|]; [| done].
    destruct (Z.eqb_spec id 0) as [| Hid]; [done |]. cbv zeta in Hans.
    destruct (Z.leb_spec (chat_max_length self) 0); [done |].
    split; [done |]. split; [by exists id | done].
  - intros (Hmay & (id & Hchannel & Hid) & Hmax).
    rewrite reset_command_run, Hchannel by done. cbv zeta.
    destruct (Z.eqb_spec id 0); [done |].
    by destruct (Z.leb_spec (chat_max_length self) 0); [lia |].
Qed.

(** X19: resetting again changes nothing more: [reset_command] on the
    store it has left gives the same answer and the same store. *)
Theorem reset_idempotent (redis : Redis) (interaction : Interaction) :
  reset_command self (reset_command self redis interaction).2 interaction
    = reset_command self redis interaction.
Proof.
  destruct (may_reset_dec interaction) as [Hmay | Hmay];
    [| by rewrite !reset_command_refused].
  rewrite !reset_command_run by done.
  destruct (interaction_channel_id interaction) as [id|]; [| done].
  destruct (id =? 0); [done |]. cbv zeta.
  unfold flush_channel.
  destruct (chat_max_length self <=? 0); cbn [snd].
  - by rewrite delete_delete_eq.
  - by rewrite delete_insert_eq, delete_delete_eq.
Qed.

(** X20: whatever the answer, [reset_command] leaves the history of every
    channel other than the one of the interaction as it was. *)
Theorem reset_isolated (redis : Redis) (interaction : Interaction) other :
  (forall id, interaction_channel_id interaction = Some id ->
              other <> str_int id) ->
  load_channel (reset_command self redis interaction).2 other
    = load_channel redis other.
Proof.
  intros Hother.
  destruct (may_reset_dec interaction) as [Hmay | Hmay];
    [| by rewrite reset_command_refused].
  rewrite reset_command_run by done.
  destruct (interaction_channel_id interaction) as [id|]; [| done].
  specialize (Hother id eq_refl).
  destruct (id =? 0); [done |]. cbv zeta.
  assert (Hflush : load_channel (flush_channel redis (str_int id)) other
                   = load_channel redis other).
  { unfold load_channel, flush_channel. rewrite lookup_delete_ne; [done |].
    intros Heq. apply Hother. symmetry. by apply key_inj. }
  destruct (chat_max_length self <=? 0); cbn [snd]; [done |].
  by rewrite load_channel_insert_ne.
Qed.

End ResetMore.

(** ** The message handler: which messages are ignored, recorded, answered *)

Section HandlerMore.
Import Py.
Variable escape_mentions : text -> text.
Variable title : text -> text.
Variable discord_user_id : Z.
Variable self : Bot.
Variable backend_ : Backend.

Local Abbreviation handle :=
  (on_message escape_mentions title discord_user_id self backend_).


(** [on_message] on a message that passes the first checks. *)
Lemma on_message_accepted (sampled : bool) (redis : Redis) (message : Message) :
  accepted self message ->
  handle sampled redis message =
    let string_channel_id := str_int (channel_id message) in
    match (if not_for_us message
           then save_message self redis string_channel_id
                  (message_line message (message_text message)) USER
           else Ok redis) with
    | Raise e => Raise e
    | Ok redis =>
        if not_for_us message && negb sampled then Ok (redis, [])
        else
          let content_ := processed title discord_user_id self message in
          if len content_ =? 0 then Ok (redis, [])
          else if bool_decide (content_ = RESET)
                  && bool_decide (str_int (author_id message) = admin_id self)
          then
            match save_message self (flush_channel redis string_channel_id)
                    string_channel_id (greeting (guild_name message))
                    ASSISTANT with
            | Raise e => Raise e
            | Ok redis => Ok (redis, [])
            end
          else
            Ok (respond escape_mentions self backend_ redis message
                  (if bool_decide (content_ = RESET)
                      && negb (bool_decide
                                 (str_int (author_id message) = admin_id self))
                   then denied message else content_))
    end.
Proof.
  intros (Hready & Hchannel & Hallowed & Hself & Hdm). unfold on_message.
  rewrite Hready, Hchannel, Hself, Hdm. cbn [negb]. cbv zeta.
  assert (Hgate : negb (len (chat_channel_id self) =? 0)
                  && negb (bool_decide
                             (str_int (channel_id message) = chat_channel_id self))
                  = false).
  { destruct Hallowed as [-> | Heq]; [done |].
    rewrite (bool_decide_eq_true_2 _ Heq). apply andb_false_r. }
  by rewrite Hgate.
Qed.

(** X21: a message that fails one of the first checks changes nothing in
    the store and is not answered; a private message is answered only when
    it mentions the bot, with the apology, and leaves the store as it
    was. *)
Theorem on_message_ignored (sampled : bool) (redis : Redis) (message : Message) :
  ready self = false \/ has_channel message = false \/
  (chat_channel_id self <> [] /\
   str_int (channel_id message) <> chat_channel_id self) \/
  from_self message = true \/ is_dm message = true ->
  exists sends,
    handle sampled redis message = Ok (redis, sends) /\
    (sends = [] \/
     (is_dm message = true /\ mentioned message = true /\
      sends = write escape_mentions DM_SORRY)).
Proof.
  intros Hwhy. unfold on_message.
  destruct (ready self); [| by exists []; split; [| left]]. cbn [negb].
  destruct (has_channel message); [| by exists []; split; [| left]]. cbn [negb].
  destruct (negb (len (chat_channel_id self) =? 0) && _) eqn:Hgate;
    [by exists []; split; [| left] |].
  destruct (from_self message); [by exists []; split; [| left] |].
  destruct (is_dm message) eqn:Hdm.
  - destruct (mentioned message); eexists; (split; [done |]);
      [right; by repeat split | by left].
  - exfalso. destruct Hwhy as [? | [? | [[Hconf Hother] | [? | ?]]]]; try done.
    apply andb_false_iff in Hgate as [Hgate | Hgate].
    + apply negb_false_iff, Z.eqb_eq, len_nil_iff in Hgate. done.
    + apply negb_false_iff, bool_decide_eq_true in Hgate. done.
Qed.

(** X22: a message that is not addressed to the bot, and is not picked by
    the sampling, is recorded and not answered: under a maximum turn count
    of at least one its line, through the cut of [save_message], is put
    behind the history of the channel as a user turn, the oldest turns
    giving way, and nothing is sent. *)
Theorem on_message_recorded (redis : Redis) (message : Message) :
  accepted self message ->
  not_for_us message = true ->
  0 < chat_max_length self ->
  exists redis' : Redis,
    handle false redis message = Ok (redis', []) /\
    load_channel redis' (str_int (channel_id message)) =
      lastn (Z.to_nat (chat_max_length self))
        (load_channel redis (str_int (channel_id message))
           ++ [mkTurn USER
                 (truncate self
                    (message_line message (message_text message)))]).
Proof.
  intros Hacc Hnot Hmax. rewrite on_message_accepted by done. cbv zeta.
  rewrite Hnot. rewrite save_message_ok by (done || apply message_line_nonblank).
  cbn [negb andb]. eexists. split; [done |]. by rewrite load_channel_insert.
Qed.

(** X23: under a maximum turn count of at least one, the text [RESET],
    addressed to the bot by the admin, flushes the channel and leaves in it
    one assistant turn, the greeting of the guild through the cut of
    [save_message]; nothing is sent. *)
Theorem on_message_admin_reset (sampled : bool) (redis : Redis)
    (message : Message) :
  accepted self message ->
  not_for_us message = false ->
  processed title discord_user_id self message = RESET ->
  str_int (author_id message) = admin_id self ->
  0 < chat_max_length self ->
  exists redis' : Redis,
    handle sampled redis message = Ok (redis', []) /\
    load_channel redis' (str_int (channel_id message)) =
      [mkTurn ASSISTANT (truncate self (greeting (guild_name message)))].
Proof.
  intros Hacc Hnot Hreset Hadmin Hmax.
  rewrite on_message_accepted by done. cbv zeta.
  rewrite Hnot, Hreset. cbn [andb]. change (len RESET =? 0) with false.
  cbv iota. rewrite (bool_decide_eq_true_2 (RESET = RESET)) by done.
  rewrite (bool_decide_eq_true_2 _ Hadmin). cbn [andb].
  rewrite save_message_ok by (done || apply greeting_nonblank).
  eexists. split; [done |].
  rewrite load_channel_insert, load_channel_flush.
  apply lastn_all. simpl. lia.
Qed.


(** Every call of [write] stays within the limits of the platform. *)
Lemma write_bounded (s : text) :
  (length (write escape_mentions s) <= 10)%nat /\
  Forall (fun m => 0 < len (payload m) <= 2000) (write escape_mentions s).
Proof.
  unfold write, write_value.
  destruct (Z.leb_spec 2000 (len (outgoing escape_mentions s))).
  - split; [| apply write_loop_length].
    pose proof (write_loop_count 11 0 false (outgoing escape_mentions s)). lia.
  - split; [simpl; lia |]. repeat constructor; simpl.
    + apply outgoing_nonempty.
    + lia.
Qed.

Lemma respond_bounded (redis : Redis) (message : Message) content_ :
  let sends := (respond escape_mentions self backend_ redis message content_).2 in
  (length sends <= 10)%nat /\
  Forall (fun m => 0 < len (payload m) <= 2000) sends.
Proof.
  unfold respond.
  destruct (save_message self redis _ _ USER); [| apply write_bounded].
  destruct (chat self backend_ _ _). apply write_bounded.
Qed.

(** X25: whatever the message and the backend, [on_message] sends at most
    ten messages, none empty and none longer than 2000 characters. *)
Theorem on_message_bounded (sampled : bool) (redis redis' : Redis)
    (message : Message) sends :
  handle sampled redis message = Ok (redis', sends) ->
  (length sends <= 10)%nat /\
  Forall (fun m => 0 < len (payload m) <= 2000) sends.
Proof.
  unfold on_message.
  repeat (case_match; try done); intros Hrun; simplify_eq;
    try (split; [simpl; lia | constructor]);
    try apply write_bounded.
  all: match goal with
       | H : respond _ _ _ ?r ?m ?c = (_, ?s) |- _ =>
           pose proof (respond_bounded r m c) as Hb; rewrite H in Hb;
           exact Hb
       end.
Qed.

(** With sends that do not fail, as [write] is modelled, an exception
    leaves [on_message] only when [save_message] raises outside the [try],
    and that is the [IndexError] under a maximum turn count of zero or
    less; no exception of the backend does. *)
Lemma on_message_raises (sampled : bool) (redis : Redis)
    (message : Message) e :
  handle sampled redis message = Raise e ->
  e = IndexError /\ chat_max_length self <= 0.
Proof.
  unfold on_message.
  repeat (case_match; try done); intros [= <-];
    match goal with
    | H : save_message _ _ _ _ _ = Raise _ |- _ =>
        by apply save_message_raises in H
    end.
Qed.

Lemma respond_other (redis : Redis) (message : Message) content_ other :
  other <> str_int (channel_id message) ->
  load_channel (respond escape_mentions self backend_ redis message content_).1
    other = load_channel redis other.
Proof.
  intros Hne. unfold respond.
  destruct (save_message self redis _ _ USER) as [redis1 | e] eqn:Hsave;
    [| done].
  pose proof (chat_cases self backend_ redis1 (str_int (channel_id message)))
    as Hchat. cbv zeta in Hchat.
  destruct (chat self backend_ redis1 _) as [response redis2]. cbn [fst].
  rewrite <- (save_message_other self _ _ _ _ _ _ Hsave Hne).
  destruct (backend_outcome self backend_ _) as [text_ | e];
    [| by injection Hchat as _ ->].
  destruct (len text_ =? 0); [by injection Hchat as _ -> |].
  destruct (save_message self redis1 _ text_ ASSISTANT) as [redis3 | e]
    eqn:Hsave'; injection Hchat as _ ->; [| done].
  by eapply save_message_other.
Qed.

(** X27: a message of one channel leaves the history of every other
    channel as it was, whatever [on_message] does with it. *)
Theorem on_message_isolated (sampled : bool) (redis redis' : Redis)
    (message : Message) sends other :
  handle sampled redis message = Ok (redis', sends) ->
  other <> str_int (channel_id message) ->
  load_channel redis' other = load_channel redis other.
Proof.
  intros Hrun Hne. unfold on_message in Hrun.
  assert (Hflush : forall r : Redis,
             load_channel (flush_channel r (str_int (channel_id message))) other
             = load_channel r other).
  { intros r. unfold load_channel, flush_channel.
    rewrite lookup_delete_ne; [done |].
    intros Heq. apply Hne. symmetry. by apply key_inj. }
  repeat (case_match; try done); simplify_eq; try done;
    repeat match goal with
    | H : save_message _ _ _ _ _ = Ok _ |- _ =>
        apply (fun H' => save_message_other _ _ _ _ other _ _ H' Hne) in H
    | H : respond _ _ _ ?r ?m ?c = (_, _) |- _ =>
        pose proof (respond_other r m c other Hne) as Hresp;
        rewrite H in Hresp; cbn [fst] in Hresp; clear H
    end;
    rewrite ?Hflush in *; congruence.
Qed.

(** X28: an ordinary message addressed to the bot, answered by the backend
    with a non-blank text, under a maximum turn count of at least one: the
    answer is written as the backend gave it, and the channel ends with the
    line of the message as a user turn followed by the answer as an
    assistant turn, each through the cut of [save_message], the oldest
    turns giving way. *)
Theorem on_message_answered (sampled : bool) (redis : Redis)
    (message : Message) response :
  let string_channel_id := str_int (channel_id message) in
  let content_ := processed title discord_user_id self message in
  let line := mkTurn USER (truncate self (message_line message content_)) in
  let history :=
    lastn (Z.to_nat (chat_max_length self))
      (load_channel redis string_channel_id ++ [line]) in
  accepted self message ->
  not_for_us message = false ->
  content_ <> [] ->
  content_ <> RESET ->
  0 < chat_max_length self ->
  backend_outcome self backend_ (trim self history) = Ok response ->
  strip response <> [] ->
  exists redis' : Redis,
    handle sampled redis message = Ok (redis', write escape_mentions response) /\
    load_channel redis' string_channel_id =
      lastn (Z.to_nat (chat_max_length self))
        (load_channel redis string_channel_id
           ++ [line; mkTurn ASSISTANT (truncate self response)]).
Proof.
  intros string_channel_id content_ line history
    Hacc Hnot Hne Hreset Hmax Hout Hblank.
  rewrite on_message_accepted by done. cbv zeta.
  rewrite Hnot. cbn [andb]. fold content_. fold string_channel_id.
  destruct (Z.eqb_spec (len content_) 0) as [H0 | _].
  { by apply len_nil_iff in H0. }
  rewrite !(bool_decide_eq_false_2 (content_ = RESET)) by done. cbn [andb].
  unfold respond. fold string_channel_id.
  rewrite save_message_ok by (done || apply message_line_nonblank).
  change (turn_of self (message_line message content_, USER)) with line.
  fold history.
  pose proof (chat_cases self backend_
                (<[key string_channel_id := history]> redis) string_channel_id)
    as Hchat.
  cbv zeta in Hchat. rewrite load_channel_insert, Hout in Hchat.
  destruct (Z.eqb_spec (len response) 0) as [H0 | _].
  { apply len_nil_iff in H0. by subst response. }
  rewrite save_message_ok in Hchat by done. rewrite Hchat.
  eexists. split; [done |].
  rewrite !load_channel_insert. subst history.
  rewrite lastn_app_lastn. by rewrite <- app_assoc.
Qed.

End HandlerMore.

(** ** The sanitizer: no broadcast mention gets through *)

Section ReplaceFacts.
Import Py.

(** The replacement puts [z] behind the first character [a] of [old]. *)
Variables (a z : char) (v : text).
Let old : text := a :: v.
Let new : text := a :: z :: v.

Lemma replace_scan_skip (s : text) : forall k,
  replace_scan old new s k = replace_scan old new (drop k s) 0.
Proof.
  induction s as [|c s IH]; intros [|k]; try done.
  cbn [replace_scan drop]. apply IH.
Qed.

Lemma replace_match (s : text) :
  startswith s old = true ->
  replace s old new = new ++ replace (drop (length old) s) old new.
Proof.
  intros Hstart. unfold replace. destruct s as [|c s]; [done |].
  cbn [replace_scan]. rewrite Hstart. f_equal.
  rewrite replace_scan_skip. subst old. cbn [length drop].
  by replace (S (length v) - 1)%nat with (length v) by lia.
Qed.

Lemma replace_copy (c : char) (s : text) :
  startswith (c :: s) old = false ->
  replace (c :: s) old new = c :: replace s old new.
Proof. intros Hstart. unfold replace. cbn [replace_scan]. by rewrite Hstart. Qed.

(** A text without [a] stands at the start of the result exactly when it
    stands at the start of the argument. *)
Lemma replace_startswith (w : text) : forall s : text,
  Forall (fun c => c <> a) w ->
  startswith (replace s old new) w = startswith s w.
Proof.
  induction w as [|h w IH]; intros s Hw; [by destruct (replace s old new), s |].
  apply Forall_cons in Hw as [Hh Hw].
  destruct s as [|c s]; [done |].
  destruct (startswith (c :: s) old) eqn:Hstart.
  - rewrite replace_match by done. subst old new. cbn [startswith app].
    cbn [startswith] in Hstart. apply andb_true_iff in Hstart as [Hc _].
    apply N.eqb_eq in Hc. subst c.
    by rewrite (proj2 (N.eqb_neq h a) Hh).
  - rewrite replace_copy by done. cbn [startswith]. by rewrite IH.
Qed.

Lemma contains_suffix (s t pat : text) :
  t `suffix_of` s -> startswith t pat = true -> contains s pat = true.
Proof.
  intros [k ->] Hstart. induction k as [|c k IH].
  - rewrite app_nil_l. destruct t; cbn [contains]; by rewrite Hstart.
  - cbn [app contains]. rewrite IH. apply orb_true_r.
Qed.

(** An occurrence of [a :: w] in the result stands at a place of the
    argument where [a :: w] occurs and [old] does not. *)
Lemma replace_occurrence (w : text) :
  Forall (fun c => c <> a) w ->
  (forall x, contains (new ++ x) (a :: w) = contains x (a :: w)) ->
  forall (n : nat) (s : text),
    (length s <= n)%nat ->
    contains (replace s old new) (a :: w) = true ->
    exists t, t `suffix_of` s /\ startswith t (a :: w) = true /\
              startswith t old = false.
Proof.
  intros Hw Hnew. induction n as [|n IH]; intros s Hlen Hin.
  - destruct s; [done | simpl in Hlen; lia].
  - destruct s as [|c s]; [done |].
    destruct (startswith (c :: s) old) eqn:Hstart.
    + rewrite replace_match, Hnew in Hin by done.
      destruct (IH (drop (length old) (c :: s))) as (t & Hsuf & Ht); [| done |].
      * rewrite length_drop. subst old. simpl in *. lia.
      * exists t. split; [| done].
        etrans; [exact Hsuf | apply suffix_drop].
    + rewrite replace_copy in Hin by done.
      cbn [contains] in Hin. apply orb_true_iff in Hin as [Hhere | Hlater].
      * exists (c :: s). split; [done |]. split; [| done].
        cbn [startswith] in Hhere |- *.
        apply andb_true_iff in Hhere as [Hc Hrest]. rewrite Hc.
        by rewrite replace_startswith in Hrest.
      * destruct (IH s) as (t & Hsuf & Ht); [simpl in Hlen; lia | done |].
        exists t. split; [by apply suffix_cons_r | done].
Qed.

(** After the replacement [old] occurs nowhere. *)
Lemma replace_removes (s : text) :
  Forall (fun c => c <> a) v ->
  (forall x, contains (new ++ x) old = contains x old) ->
  contains (replace s old new) old = false.
Proof.
  intros Hv Hnew. apply not_true_is_false. intros Hin.
  destruct (replace_occurrence v Hv Hnew (length s) s (le_n _) Hin)
    as (t & _ & Hyes & Hno).
  subst old. congruence.
Qed.

(** The replacement brings no occurrence of [a :: w] that was not
    there. *)
Lemma replace_keeps_out (w s : text) :
  Forall (fun c => c <> a) w ->
  (forall x, contains (new ++ x) (a :: w) = contains x (a :: w)) ->
  contains s (a :: w) = false ->
  contains (replace s old new) (a :: w) = false.
Proof.
  intros Hw Hnew Hout. apply not_true_is_false. intros Hin.
  destruct (replace_occurrence w Hw Hnew (length s) s (le_n _) Hin)
    as (t & Hsuf & Hyes & _).
  rewrite (contains_suffix s t (a :: w) Hsuf Hyes) in Hout. done.
Qed.

End ReplaceFacts.

Section SanitizeMore.
Import Py.
Variable escape_mentions : text -> text.

(** X29: the text [sanitize] hands to [escape_mentions] holds neither
    [@everyone] nor [@here]: every one of them has got the zero-width space
    behind its [@]. *)
Theorem sanitize_no_broadcast (message : text) :
  exists non_mentioned,
    sanitize escape_mentions message = escape_mentions non_mentioned /\
    contains non_mentioned (str "@everyone") = false /\
    contains non_mentioned (str "@here") = false.
Proof.
  eexists. split; [reflexivity |]. split.
  - apply (replace_keeps_out 64%N zero_width_space (str "here")
             (str "everyone")).
    + repeat constructor; done.
    + intros x. reflexivity.
    + apply (replace_removes 64%N zero_width_space (str "everyone")).
      * repeat constructor; done.
      * intros x. reflexivity.
  - apply (replace_removes 64%N zero_width_space (str "here")).
    + repeat constructor; done.
    + intros x. reflexivity.
Qed.

End SanitizeMore.

(** ** The further properties on examples *)

Ltac accept := repeat split; try reflexivity; left; reflexivity.

Lemma save_message_round_trip_witness :
  exists redis' : Redis,
    save_message default_bot old_history (str "7") (str "hi") USER = Ok redis' /\
    last (load_channel redis' (str "7"))
      = Some (mkTurn USER (truncate default_bot (str "hi"))) /\
    Py.len (load_channel redis' (str "7"))
      = Z.min (chat_max_length default_bot)
          (Py.len (load_channel old_history (str "7")) + 1).
Proof.
  apply (save_message_round_trip default_bot old_history (str "7") (str "hi") USER).
  - reflexivity.
  - by vm_compute.
Defined.

Lemma save_message_keeps_cap_witness :
  Forall (fun t => Py.len (content t) <= msg_max_chars terse)
    (load_channel {[ key (str "7") := [mkTurn USER (str "def")] ]} (str "7")).
Proof.
  apply (save_message_keeps_cap terse ∅ _ (str "7") (str "abcdef") USER).
  - reflexivity.
  - constructor.
  - vm_compute. reflexivity.
Defined.

Lemma store_isolated_witness :
  load_channel (flush_channel old_history (str "8")) (str "7")
    = load_channel old_history (str "7").
Proof.
  apply (store_isolated default_bot old_history old_history (str "8") (str "7")
           [] USER).
  by vm_compute.
Defined.

Lemma trim_no_budget_witness :
  trim no_context [mkTurn USER (str "hi")] = [].
Proof. apply (trim_no_budget no_context). by vm_compute. Defined.

Lemma chat_isolated_witness :
  load_channel (chat default_bot hello_backend old_history (str "8")).2 (str "7")
    = load_channel old_history (str "7").
Proof. apply (chat_isolated default_bot hello_backend). by vm_compute. Defined.

Lemma chat_stores_reply_witness :
  (chat default_bot hello_backend old_history (str "7")).1 = str "hello" /\
  last (load_channel (chat default_bot hello_backend old_history (str "7")).2
          (str "7"))
    = Some (mkTurn ASSISTANT (truncate default_bot (str "hello"))).
Proof.
  apply (chat_stores_reply default_bot hello_backend old_history (str "7")
           (str "hello")).
  - reflexivity.
  - by vm_compute.
  - reflexivity.
Defined.

Lemma chat_blank_reply_witness :
  chat default_bot blank_backend old_history (str "7") = (str " ", old_history).
Proof.
  apply (chat_blank_reply default_bot blank_backend old_history (str "7")).
  - reflexivity.
  - discriminate.
  - reflexivity.
Defined.

Lemma chat_without_memory_witness :
  (chat no_memory hello_backend old_history (str "7")).2 = old_history.
Proof.
  apply (chat_without_memory no_memory hello_backend old_history (str "7")).
  by vm_compute.
Defined.

Lemma chat_stream_concat_witness :
  (chat streaming parts_backend ∅ (str "7")).1 = concat [str "hel"; []; str "lo"].
Proof.
  apply (chat_stream_concat streaming parts_backend ∅ (str "7")).
  - reflexivity.
  - reflexivity.
  - reflexivity.
  - by vm_compute.
  - reflexivity.
Defined.

Lemma chat_stream_refused_witness :
  chat streaming hello_backend old_history (str "7")
    = chat (without_stream streaming) hello_backend old_history (str "7").
Proof.
  apply (chat_stream_refused streaming hello_backend old_history (str "7")).
  reflexivity.
Defined.

Lemma write_no_newline_witness :
  concat (map payload (write Discord.escape_mentions (rep 4500 "a")))
    = take (Z.to_nat 20000)
        (if Py.len (sanitize Discord.escape_mentions (rep 4500 "a")) =? 0
         then NOTHING_TO_SAY
         else sanitize Discord.escape_mentions (rep 4500 "a")).
Proof.
  apply (write_no_newline Discord.escape_mentions (rep 4500 "a")).
  apply (bool_decide_unpack _). vm_compute. exact I.
Defined.

Lemma reset_isolated_witness :
  load_channel (reset_command default_bot old_history
                  (mkInteraction 42 (Some 8) None)).2 (str "7")
    = load_channel old_history (str "7").
Proof.
  apply (reset_isolated default_bot old_history (mkInteraction 42 (Some 8) None)).
  intros id [= <-]. by vm_compute.
Defined.

Lemma on_message_ignored_witness :
  exists sends,
    on_message Discord.escape_mentions title_ascii 99 default_bot hello_backend
      true old_history private = Ok (old_history, sends) /\
    (sends = [] \/
     (is_dm private = true /\ mentioned private = true /\
      sends = write Discord.escape_mentions DM_SORRY)).
Proof.
  apply (on_message_ignored Discord.escape_mentions title_ascii 99 default_bot
           hello_backend true old_history private).
  do 4 right. reflexivity.
Defined.

Lemma on_message_recorded_witness :
  exists redis' : Redis,
    on_message Discord.escape_mentions title_ascii 99 default_bot hello_backend
      false old_history chatter = Ok (redis', []) /\
    load_channel redis' (Py.str_int (channel_id chatter)) =
      lastn (Z.to_nat (chat_max_length default_bot))
        (load_channel old_history (Py.str_int (channel_id chatter))
           ++ [mkTurn USER
                 (truncate default_bot
                    (message_line chatter (message_text chatter)))]).
Proof.
  apply (on_message_recorded Discord.escape_mentions title_ascii 99 default_bot
           hello_backend old_history chatter).
  - accept.
  - reflexivity.
  - reflexivity.
Defined.

Lemma on_message_admin_reset_witness :
  exists redis' : Redis,
    on_message Discord.escape_mentions title_ascii 99 default_bot hello_backend
      false old_history reset_by_admin = Ok (redis', []) /\
    load_channel redis' (Py.str_int (channel_id reset_by_admin)) =
      [mkTurn ASSISTANT
         (truncate default_bot (greeting (guild_name reset_by_admin)))].
Proof.
  apply (on_message_admin_reset Discord.escape_mentions title_ascii 99
           default_bot hello_backend false old_history reset_by_admin).
  - accept.
  - reflexivity.
  - vm_compute. reflexivity.
  - vm_compute. reflexivity.
  - reflexivity.
Defined.


Lemma on_message_bounded_witness :
  (length [mkSend (str "hello") true] <= 10)%nat /\
  Forall (fun m => 0 < Py.len (payload m) <= 2000) [mkSend (str "hello") true].
Proof.
  apply (on_message_bounded Discord.escape_mentions title_ascii 99 default_bot
           hello_backend false old_history
           {[ key (str "7") :=
                [mkTurn USER (str "old");
                 mkTurn USER
                   (str "**(1001) at 2024-01-01 12:00:00 mallory(7) replied to 1000 in general**: mallory tried to reset the chat, but was denied.");
                 mkTurn ASSISTANT (str "hello")] ]}
           reset_by_stranger).
  vm_compute. reflexivity.
Defined.

Example on_message_raises_no_memory :
  on_message Discord.escape_mentions title_ascii 99 no_memory hello_backend
    false old_history chatter = Raise IndexError /\
  IndexError = IndexError /\ chat_max_length no_memory <= 0.
Proof.
  assert (H : on_message Discord.escape_mentions title_ascii 99 no_memory
                hello_backend false old_history chatter = Raise IndexError)
    by (vm_compute; reflexivity).
  split; [exact H |].
  exact (on_message_raises Discord.escape_mentions title_ascii 99 no_memory
           hello_backend false old_history chatter IndexError H).
Qed.

Lemma on_message_isolated_witness :
  load_channel
    {[ key (str "7") :=
         [mkTurn USER (str "old");
          mkTurn USER
            (str "**(1001) at 2024-01-01 12:00:00 mallory(7) replied to 1000 in general**: mallory tried to reset the chat, but was denied.");
          mkTurn ASSISTANT (str "hello")] ]} (str "8")
    = load_channel old_history (str "8").
Proof.
  apply (on_message_isolated Discord.escape_mentions title_ascii 99 default_bot
           hello_backend false old_history _ reset_by_stranger
           [mkSend (str "hello") true]).
  - vm_compute. reflexivity.
  - by vm_compute.
Defined.

Lemma on_message_answered_witness :
  exists redis' : Redis,
    on_message Discord.escape_mentions title_ascii 99 default_bot hello_backend
      false old_history question
      = Ok (redis', write Discord.escape_mentions (str "hello")) /\
    load_channel redis' (Py.str_int (channel_id question)) =
      lastn (Z.to_nat (chat_max_length default_bot))
        (load_channel old_history (Py.str_int (channel_id question))
           ++ [mkTurn USER
                 (truncate default_bot
                    (message_line question
                       (processed title_ascii 99 default_bot question)));
               mkTurn ASSISTANT (truncate default_bot (str "hello"))]).
Proof.
  apply (on_message_answered Discord.escape_mentions title_ascii 99 default_bot
           hello_backend false old_history question (str "hello")).
  - accept.
  - reflexivity.
  - by vm_compute.
  - by vm_compute.
  - reflexivity.
  - reflexivity.
  - by vm_compute.
Defined.

Example on_message_question :
  on_message Discord.escape_mentions title_ascii 99 default_bot hello_backend
    false ∅ question =
    Ok ({[ key (str "7") :=
             [mkTurn USER
                (str "**(1003) at 2024-01-01 12:00:02 alice(8) said in general**: Assistant how are you");
              mkTurn ASSISTANT (str "hello")] ]},
        [mkSend (str "hello") true]).
Proof. vm_compute. reflexivity. Qed.
